(** * StatProj: the transform-and-filter pipeline

    A shallow embedding of [data_transformer.py] and [analyzer.py]:
    the GDP cell parser, the wide-to-long melts, the inner join, the
    year filter and the statistics wrappers, with the properties stated
    for them in the specification. *)

From Stdlib Require Import ZArith Lia Bool List Ascii String Permutation Sorted.
From Stdlib Require Import Floats.SpecFloat.
From stdpp Require Import base list gmap strings.

Import ListNotations.
Local Open Scope Z_scope.

(** ** Binary64 values

    Python's [float] and the float64 columns of a DataFrame are IEEE 754
    binary64 numbers.  They are modelled by [spec_float] at precision 53
    and maximal exponent 1024; [np.nan] is [S754_nan]. *)

Module F64.

Definition prec : Z := 53.
Definition emax : Z := 1024.

Definition float : Type := spec_float.

Definition nan : float := S754_nan.

Definition mul : float -> float -> float := SFmul prec emax.
Definition add : float -> float -> float := SFadd prec emax.
Definition sub : float -> float -> float := SFsub prec emax.
Definition div : float -> float -> float := SFdiv prec emax.
Definition sqrt : float -> float := SFsqrt prec emax.

(** [x < y] and [x == y] on floats: false as soon as one side is NaN. *)
Definition ltb : float -> float -> bool := SFltb.
Definition eqb : float -> float -> bool := SFeqb.

Definition of_Z (n : Z) : float := binary_normalize prec emax n 0 false.

(** [pd.isna] on a float cell. *)
Definition isna (x : float) : bool :=
  match x with S754_nan => true | _ => false end.

(** The correctly rounded value of [(-1)^s * m * 10^e], as computed by
    the decimal-to-binary conversion behind [float(str)]. *)
Definition of_decimal (s : bool) (m : Z) (e : Z) : float :=
  match m with
  | Zpos p =>
      match e with
      | Zneg q => div (S754_finite s p 0) (S754_finite false (10 ^ q)%positive 0)
      | _ => binary_round prec emax s (p * Z.to_pos (10 ^ e))%positive 0
      end
  | _ => S754_zero s
  end.

End F64.

Abbreviation float := F64.float.

#[global] Instance float_eq_decision : EqDecision float.
Proof. unfold F64.float. solve_decision. Defined.

(** ** Python strings

    A [str] is modelled by [string], read as a sequence of code points below
    256; the built-ins used by the pipeline work on the list of characters. *)

Module Py.

Definition chars (s : string) : list ascii := list_ascii_of_string s.

Definition code (c : ascii) : N := N_of_ascii c.

(** [str.isspace] on one code point below 256: this is the set that
    [str.strip()] removes. *)
Definition isspace (c : ascii) : bool :=
  let n := code c in
  ((9 <=? n) && (n <=? 13) || (28 <=? n) && (n <=? 32)
   || (n =? 133) || (n =? 160))%N.

(** The blanks that [float()] and [int()] skip around a literal: the C
    blanks and the two non-ASCII spaces, not the separators 28..31. *)
Definition isblank (c : ascii) : bool :=
  let n := code c in
  ((9 <=? n) && (n <=? 13) || (n =? 32) || (n =? 133) || (n =? 160))%N.

Fixpoint lstrip_by (p : ascii -> bool) (l : list ascii) : list ascii :=
  match l with
  | c :: l' => if p c then lstrip_by p l' else l
  | [] => []
  end.

Definition rstrip_by (p : ascii -> bool) (l : list ascii) : list ascii :=
  rev (lstrip_by p (rev l)).

Definition strip_by (p : ascii -> bool) (l : list ascii) : list ascii :=
  rstrip_by p (lstrip_by p l).

(** [s.strip()] *)
Definition strip : list ascii -> list ascii := strip_by isspace.

Definition is_comma (c : ascii) : bool := (code c =? 44)%N.

(** [s.replace(",", "")] *)
Definition remove_commas (l : list ascii) : list ascii :=
  List.filter (fun c => negb (is_comma c)) l.

(** [s.endswith(("k", "K"))] *)
Definition ends_with_k (l : list ascii) : bool :=
  match rev l with
  | c :: _ => ((code c =? 107) || (code c =? 75))%N
  | [] => false
  end.

(** [s[:-1]] *)
Definition drop_last (l : list ascii) : list ascii := removelast l.

Definition is_digit (c : ascii) : bool :=
  ((48 <=? code c) && (code c <=? 57))%N.

Definition digit_val (c : ascii) : Z := Z.of_N (code c) - 48.

Definition is_underscore (c : ascii) : bool := (code c =? 95)%N.

(** Underscores in a numeric literal: each one must stand between two
    digits.  [prev] is the previous character, if any. *)
Fixpoint underscores_ok (prev : option ascii) (l : list ascii) : bool :=
  match l with
  | [] => match prev with
          | Some p => negb (is_underscore p)
          | None => true
          end
  | c :: l' =>
      (if is_underscore c
       then match prev with Some p => is_digit p | None => false end
       else match prev with
            | Some p => negb (is_underscore p) || is_digit c
            | None => true
            end)
      && underscores_ok (Some c) l'
  end.

Definition remove_underscores (l : list ascii) : list ascii :=
  List.filter (fun c => negb (is_underscore c)) l.

(** Leading decimal digits of [l] and what follows them. *)
Fixpoint span_digits (l : list ascii) : list ascii * list ascii :=
  match l with
  | c :: l' =>
      if is_digit c
      then let '(d, r) := span_digits l' in (c :: d, r)
      else ([], l)
  | [] => ([], [])
  end.

Definition digits_val (d : list ascii) : Z :=
  fold_left (fun acc c => 10 * acc + digit_val c) d 0.

(** An optional sign: [true] is minus. *)
Definition take_sign (l : list ascii) : bool * list ascii :=
  match l with
  | c :: l' =>
      if (code c =? 45)%N then (true, l')
      else if (code c =? 43)%N then (false, l')
      else (false, l)
  | [] => (false, [])
  end.

Definition lower (c : ascii) : ascii :=
  let n := code c in
  if ((65 <=? n) && (n <=? 90))%N then ascii_of_N (n + 32) else c.

Definition ieq (l : list ascii) (w : string) : bool :=
  bool_decide (map lower l = chars w).

Definition is_dot (c : ascii) : bool := (code c =? 46)%N.
Definition is_e (c : ascii) : bool := ((code c =? 101) || (code c =? 69))%N.

(** The exponent part after [e]: an optional sign and at least one digit,
    up to the end of the literal. *)
Definition parse_exponent (l : list ascii) : option Z :=
  let '(neg, r) := take_sign l in
  let '(d, rest) := span_digits r in
  match d, rest with
  | _ :: _, [] => Some (if neg then - digits_val d else digits_val d)
  | _, _ => None
  end.

(** [digits [. digits] [e exponent]] with at least one digit before the
    exponent; the value is the decimal, correctly rounded. *)
Definition parse_number (neg : bool) (l : list ascii) : option float :=
  let '(ip, r1) := span_digits l in
  let '(fp, r2) :=
    match r1 with
    | c :: r => if is_dot c then span_digits r else ([], r1)
    | [] => ([], [])
    end in
  let m := digits_val (ip ++ fp) in
  let k := Z.of_nat (length fp) in
  match ip ++ fp with
  | [] => None
  | _ :: _ =>
      match r2 with
      | [] => Some (F64.of_decimal neg m (- k))
      | c :: r =>
          if is_e c
          then match parse_exponent r with
               | Some e => Some (F64.of_decimal neg m (e - k))
               | None => None
               end
          else None
      end
  end.

(** A float literal without surrounding blanks and without underscores:
    a sign, then [inf], [infinity] or [nan] in any case, or a number. *)
Definition float_literal (l : list ascii) : option float :=
  let '(neg, r) := take_sign l in
  if ieq r "inf" || ieq r "infinity" then Some (S754_infinity neg)
  else if ieq r "nan" then Some F64.nan
  else parse_number neg r.

(** [float(s)]: [None] stands for [ValueError]. *)
Definition float_of_str (l : list ascii) : option float :=
  if underscores_ok None l
  then float_literal (strip_by isblank (remove_underscores l))
  else None.

(** [int(s)] in base 10: [None] stands for [ValueError]. *)
Definition int_of_str (l : list ascii) : option Z :=
  if underscores_ok None l
  then
    let '(neg, r) := take_sign (strip_by isblank (remove_underscores l)) in
    let '(d, rest) := span_digits r in
    match d, rest with
    | _ :: _, [] => Some (if neg then - digits_val d else digits_val d)
    | _, _ => None
    end
  else None.

End Py.

(** ** Exceptions

    A call either returns a value or raises; [catch_ValueError] is
    [try: ... except ValueError: return h]. *)

Inductive exn : Type :=
  | ValueError
  | OverflowError
  | KeyError
  | InsufficientData.

Inductive outcome (A : Type) : Type :=
  | Return (a : A)
  | Raise (e : exn).

Arguments Return {A} a.
Arguments Raise {A} e.

#[global] Instance exn_eq_decision : EqDecision exn.
Proof. solve_decision. Defined.

Definition bind {A B : Type} (r : outcome A) (k : A -> outcome B) : outcome B :=
  match r with
  | Return a => k a
  | Raise e => Raise e
  end.

Notation "x <-- r ;; k" := (bind r (fun x => k))
  (at level 100, r at next level, right associativity).

Definition catch_ValueError {A : Type} (r : outcome A) (h : A) : outcome A :=
  match r with
  | Raise ValueError => Return h
  | _ => r
  end.

(** [float(s)] as a call that may raise. *)
Definition py_float (l : list ascii) : outcome float :=
  match Py.float_of_str l with
  | Some x => Return x
  | None => Raise ValueError
  end.

(** [int(s)] as a call that may raise. *)
Definition py_int (l : list ascii) : outcome Z :=
  match Py.int_of_str l with
  | Some n => Return n
  | None => Raise ValueError
  end.

(** ** data_transformer.py *)

Module DataTransformer.

(** A raw GDP cell: [None] is an absent cell (NaN or None, for which
    [pd.isna] holds), [Some s] a string. *)
Definition gdp_cell : Type := option string.

Definition thousand : float := F64.of_Z 1000.

(** [clean_gdp_cell(val)] *)
Definition clean_gdp_cell (val : gdp_cell) : outcome float :=
  match val with
  | None => Return F64.nan
  | Some v =>
      let s := Py.strip (Py.chars v) in
      if Py.ends_with_k s then
        let num_str := Py.strip (Py.remove_commas (Py.drop_last s)) in
        catch_ValueError
          (x <-- py_float num_str ;; Return (F64.mul x thousand))
          F64.nan
      else
        let num_str := Py.strip (Py.remove_commas s) in
        catch_ValueError (py_float num_str) F64.nan
  end.

(** *** Tables *)

(** A wide table as pandas holds it, column by column: the [country]
    column and one column of cells per year label. *)
Record WideTable (C : Type) : Type := mkWide {
  country_col : list string;
  year_cols : list (string * list C)
}.
Arguments mkWide {C} _ _.
Arguments country_col {C} _.
Arguments year_cols {C} _.

(** Every column has one cell per row. *)
Definition well_formed {C : Type} (df : WideTable C) : Prop :=
  Forall (fun col => length (snd col) = length (country_col df)) (year_cols df).

(** One row of a melted table: [country], [year] and a value column
    ([life_expectancy] or [gdp_per_capita]). *)
Record LongRecord : Type := mkLong {
  country : string;
  year : Z;
  value : float
}.

Record MergedRecord : Type := mkMerged {
  m_country : string;
  m_year : Z;
  life_expectancy : float;
  gdp_per_capita : float
}.

(** [df.melt(id_vars="country", var_name="year", value_name=...)]: the
    value columns are stacked one after the other. *)
Definition melt {C : Type} (df : WideTable C) : list (string * string * C) :=
  flat_map
    (fun col => map (fun cv => (fst cv, fst col, snd cv))
                    (combine (country_col df) (snd col)))
    (year_cols df).

(** The range of the int64 column that [astype(int)] builds. *)
Definition int64_min : Z := - 2 ^ 63.
Definition int64_max : Z := 2 ^ 63 - 1.

(** One label on its way into the int64 column: [int] reads it, raising
    [ValueError] on what is not an integer, and a value out of the int64
    range raises [OverflowError]. *)
Definition to_int64 (lab : string) : outcome Z :=
  y <-- py_int (Py.chars lab) ;;
  if (int64_min <=? y) && (y <=? int64_max)
  then Return y
  else Raise OverflowError.

(** [frame["year"].astype(int)]: the labels are converted one after the
    other, and the first one that cannot be converted raises. *)
Fixpoint astype_int {C : Type} (rows : list (string * string * C))
  : outcome (list (string * Z * C)) :=
  match rows with
  | [] => Return []
  | (c, lab, v) :: rest =>
      y <-- to_int64 lab ;;
      rest' <-- astype_int rest ;;
      Return ((c, y, v) :: rest')
  end.

(** [series.apply(f)] for an [f] that may raise. *)
Fixpoint apply_cells {C : Type} (f : C -> outcome float)
  (rows : list (string * Z * C)) : outcome (list LongRecord) :=
  match rows with
  | [] => Return []
  | (c, y, v) :: rest =>
      x <-- f v ;;
      rest' <-- apply_cells f rest ;;
      Return (mkLong c y x :: rest')
  end.

(** [frame.dropna(subset=[value column])] *)
Definition dropna (rows : list LongRecord) : list LongRecord :=
  List.filter (fun r => negb (F64.isna (value r))) rows.

(** [melt_life_expectancy(life_df)] *)
Definition melt_life_expectancy (life_df : WideTable float)
  : outcome (list LongRecord) :=
  life_long <-- astype_int (melt life_df) ;;
  Return (dropna (map (fun r => mkLong (fst (fst r)) (snd (fst r)) (snd r)) life_long)).

(** [melt_gdp_per_capita(gdp_df)] *)
Definition melt_gdp_per_capita (gdp_df : WideTable gdp_cell)
  : outcome (list LongRecord) :=
  gdp_melted <-- astype_int (melt gdp_df) ;;
  cleaned <-- apply_cells clean_gdp_cell gdp_melted ;;
  Return (dropna cleaned).

(** [pd.merge(left, right, on=["country", "year"], how="inner")]: every
    left row, in order, paired with each right row of the same key. *)
Definition pd_merge {A B : Type} (key_l : A -> string * Z) (key_r : B -> string * Z)
  (left : list A) (right : list B) : list (A * B) :=
  flat_map
    (fun a => map (pair a)
                (List.filter (fun b => bool_decide (key_l a = key_r b)) right))
    left.

Definition long_key (r : LongRecord) : string * Z := (country r, year r).
Definition merged_key (r : MergedRecord) : string * Z := (m_country r, m_year r).

(** [merge_datasets(life_long, gdp_long)] *)
Definition merge_datasets (life_long gdp_long : list LongRecord)
  : list MergedRecord :=
  map (fun ab => mkMerged (country (fst ab)) (year (fst ab))
                          (value (fst ab)) (value (snd ab)))
      (pd_merge long_key long_key life_long gdp_long).

End DataTransformer.

(** ** The statistics routines of scipy

    [scipy.stats.pearsonr] and [scipy.stats.ttest_1samp] as the analyzer
    sees them: which inputs raise, which give NaN, and the t statistic.
    The correlation itself and the tail probability of Student's law are
    left to the library ([pearson_stat], [t_pvalue]). *)

Module Scipy.
Section Stats.

Variable pearson_stat : list float -> list float -> float * float.
Variable t_pvalue : float -> Z -> float.

(** [(x == x[0]).all()] *)
Definition is_constant (x : list float) : bool :=
  match x with
  | x0 :: _ => forallb (fun v => F64.eqb v x0) x
  | [] => true
  end.

(** [pearsonr(x, y)]: fewer than two observations raise [ValueError];
    a constant input gives [(nan, nan)] with a warning. *)
Definition pearsonr (x y : list float) : outcome (float * float) :=
  if negb (length x =? length y)%nat then Raise ValueError
  else if (length x <? 2)%nat then Raise ValueError
  else if is_constant x || is_constant y then Return (F64.nan, F64.nan)
  else Return (pearson_stat x y).

Definition sum (a : list float) : float :=
  fold_left F64.add a (S754_zero false).

Definition count (a : list float) : float :=
  F64.of_Z (Z.of_nat (length a)).

Definition mean (a : list float) : float := F64.div (sum a) (count a).

(** Sample variance with [ddof=1]. *)
Definition var (a : list float) : float :=
  let m := mean a in
  F64.div (sum (map (fun v => F64.mul (F64.sub v m) (F64.sub v m)) a))
          (F64.of_Z (Z.of_nat (length a) - 1)).

(** [ttest_1samp(a, popmean)]: never raises; divisions by zero give
    NaN or an infinity as IEEE arithmetic has it.  The statistic is the
    formula [(mean - popmean) / sqrt(var / n)] in binary64 with the sums
    taken from left to right; the library may round its last bits
    otherwise, and only the sign and the NaN cases of the statistic are
    relied on below. *)
Definition ttest_1samp (a : list float) (popmean : float) : float * float :=
  let d := F64.sub (mean a) popmean in
  let denom := F64.sqrt (F64.div (var a) (count a)) in
  let t := F64.div d denom in
  (t, t_pvalue t (Z.of_nat (length a) - 1)).

End Stats.
End Scipy.

(** ** analyzer.py *)

Module Analyzer.
Import DataTransformer.

Definition frame : Type := list MergedRecord.

Definition zero : float := S754_zero false.
Definition ten : float := F64.of_Z 10.
Definition million : float := F64.of_Z 1000000.

(** [df[mask]] for a row-wise mask. *)
Definition select (mask : MergedRecord -> bool) (df : frame) : frame :=
  List.filter mask df.

(** [filter_2020_data(df)] *)
Definition filter_2020_data (df : frame) : frame :=
  let df_2020 := select (fun r => m_year r =? 2020) df in
  let df_2020 := select (fun r => F64.ltb zero (gdp_per_capita r)
                                  && F64.ltb zero (life_expectancy r)) df_2020 in
  let df_2020 := select (fun r => F64.ltb ten (life_expectancy r)) df_2020 in
  let df_2020 := select (fun r => F64.ltb (gdp_per_capita r) million) df_2020 in
  df_2020.

(** Insertion of a row after the rows of a smaller or equal year. *)
Fixpoint insert_by_year (r : MergedRecord) (l : frame) : frame :=
  match l with
  | [] => [r]
  | x :: l' =>
      if m_year r <? m_year x then r :: l
      else x :: insert_by_year r l'
  end.

(** [df.sort_values(by="year")]: the rows in ascending order of year.
    pandas does not fix the order among rows of the same year (the default
    sort is not stable); this definition takes one such order, and what is
    proved of a result that depends on it is stated for distinct years or
    for every ordering by year. *)
Definition sort_values (df : frame) : frame :=
  fold_left (fun acc r => insert_by_year r acc) df [].

(** [v[1:] - v[:-1]] *)
Definition diffs (v : list float) : list float :=
  map (fun ab => F64.sub (fst ab) (snd ab)) (combine (tl v) (removelast v)).

Section Library.

Variable pearson_stat : list float -> list float -> float * float.
Variable t_pvalue : float -> Z -> float.
Variable Model : Type.
Variable ols_fit : list float -> list float -> outcome Model.

(** [compute_pearson(df)] *)
Definition compute_pearson (df : frame) : outcome (float * float) :=
  Scipy.pearsonr pearson_stat (map gdp_per_capita df) (map life_expectancy df).

(** [paired_ttest_czech(df_cz)] *)
Definition paired_ttest_czech (df_cz : frame) : outcome (float * float) :=
  let cz_sorted := sort_values df_cz in
  let le_vals := map life_expectancy cz_sorted in
  Return (Scipy.ttest_1samp t_pvalue (diffs le_vals) zero).

(** [trend_czech(df)] *)
Definition trend_czech (df : frame) : outcome (frame * Model) :=
  let cz_df :=
    select (fun r => bool_decide (m_country r = "Czech Republic"%string)
                     && ((2000 <=? m_year r) && (m_year r <=? 2020))) df in
  model <-- ols_fit (map life_expectancy cz_df)
                    (map (fun r => F64.of_Z (m_year r)) cz_df) ;;
  Return (cz_df, model).

End Library.

End Analyzer.

(** ** DataFrames as objects

    A DataFrame is a Python object: a function receives a reference to it
    and may assign columns in place.  The heap holds the tables; a call
    takes the heap and returns the heap it leaves behind, with its result
    or the exception raised.  New tables are allocated at the end. *)

Module Store.
Import DataTransformer Analyzer.

(** A merged table with the extra [log_gdp] column when it has been
    assigned. *)
Record merged_obj : Type := mkObj {
  rows : frame;
  log_gdp : option (list float)
}.

Inductive table : Type :=
  | WideLife (w : WideTable float)
  | WideGdp (w : WideTable gdp_cell)
  | Long (l : list LongRecord)
  | Merged (o : merged_obj).

Definition ref : Type := nat.
Definition heap : Type := list table.

Definition st (A : Type) : Type := heap -> heap * outcome A.

(** Allocation of a fresh table. *)
Definition alloc (t : table) : st ref :=
  fun h => (h ++ [t], Return (length h)).

(** [df[mask]] on an object: every column is cut by the same mask. *)
Definition select_obj (mask : MergedRecord -> bool) (o : merged_obj) : merged_obj :=
  {| rows := select mask (rows o);
     log_gdp :=
       option_map
         (fun col => map snd (List.filter (fun rc => mask (fst rc))
                                          (combine (rows o) col)))
         (log_gdp o) |}.

Definition melt_life_expectancy (life_df : ref) : st ref :=
  fun h =>
    match h !! life_df with
    | Some (WideLife w) =>
        match DataTransformer.melt_life_expectancy w with
        | Return l => alloc (Long l) h
        | Raise e => (h, Raise e)
        end
    | _ => (h, Raise KeyError)
    end.

Definition melt_gdp_per_capita (gdp_df : ref) : st ref :=
  fun h =>
    match h !! gdp_df with
    | Some (WideGdp w) =>
        match DataTransformer.melt_gdp_per_capita w with
        | Return l => alloc (Long l) h
        | Raise e => (h, Raise e)
        end
    | _ => (h, Raise KeyError)
    end.

Definition merge_datasets (life_long gdp_long : ref) : st ref :=
  fun h =>
    match h !! life_long, h !! gdp_long with
    | Some (Long a), Some (Long b) =>
        alloc (Merged (mkObj (DataTransformer.merge_datasets a b) None)) h
    | _, _ => (h, Raise KeyError)
    end.

(** [df[df["year"] == 2020].copy()] and the three further masks, each on
    a new object. *)
Definition filter_2020_data (df : ref) : st ref :=
  fun h =>
    match h !! df with
    | Some (Merged o) =>
        let o1 := select_obj (fun r => m_year r =? 2020) o in
        let o2 := select_obj (fun r => F64.ltb zero (gdp_per_capita r)
                                       && F64.ltb zero (life_expectancy r)) o1 in
        let o3 := select_obj (fun r => F64.ltb ten (life_expectancy r)) o2 in
        let o4 := select_obj (fun r => F64.ltb (gdp_per_capita r) million) o3 in
        alloc (Merged o4) h
    | _ => (h, Raise KeyError)
    end.

Section Library.

Variable pearson_stat : list float -> list float -> float * float.
Variable t_pvalue : float -> Z -> float.
Variable log10 : float -> float.
Variable Model : Type.
Variable ols_fit : list float -> list float -> outcome Model.

Definition compute_pearson (df : ref) : st (float * float) :=
  fun h =>
    match h !! df with
    | Some (Merged o) => (h, Analyzer.compute_pearson pearson_stat (rows o))
    | _ => (h, Raise KeyError)
    end.

(** [regression_log_gdp(df)]: the assignment [df["log_gdp"] = ...]
    writes the column into the object it was given, then the model is
    fitted on it. *)
Definition regression_log_gdp (df : ref) : st Model :=
  fun h =>
    match h !! df with
    | Some (Merged o) =>
        let col := map log10 (map gdp_per_capita (rows o)) in
        let h' := <[df := Merged (mkObj (rows o) (Some col))]> h in
        (h', ols_fit (map life_expectancy (rows o)) col)
    | _ => (h, Raise KeyError)
    end.

Definition trend_czech (df : ref) : st (ref * Model) :=
  fun h =>
    match h !! df with
    | Some (Merged o) =>
        let cz :=
          select_obj
            (fun r => bool_decide (m_country r = "Czech Republic"%string)
                      && ((2000 <=? m_year r) && (m_year r <=? 2020))) o in
        let '(h', r) := alloc (Merged cz) h in
        (h',
         cz_df <-- r ;;
         model <-- ols_fit (map life_expectancy (rows cz))
                           (map (fun r => F64.of_Z (m_year r)) (rows cz)) ;;
         Return (cz_df, model))
    | _ => (h, Raise KeyError)
    end.

Definition paired_ttest_czech (df_cz : ref) : st (float * float) :=
  fun h =>
    match h !! df_cz with
    | Some (Merged o) => (h, Analyzer.paired_ttest_czech t_pvalue (rows o))
    | _ => (h, Raise KeyError)
    end.

End Library.

(** A call leaves the tables that existed before it as they were. *)
Definition preserves {A : Type} (call : st A) : Prop :=
  forall (h : heap) (r : ref), (r < length h)%nat -> fst (call h) !! r = h !! r.

End Store.

(** ** The cell parser as the specification words it *)

Module CellSpec.
Import DataTransformer.

(** "Parse the remainder as a decimal number": the literal is read
    whatever blanks surround it. *)
Definition parse_decimal (l : list ascii) : option float :=
  Py.float_of_str (Py.strip l).

(** Steps 1 to 4 of the parsing algorithm; missing is NaN. *)
Definition clean_gdp_cell_spec (raw : gdp_cell) : float :=
  match raw with
  | None => F64.nan
  | Some v =>
      let trimmed := Py.strip (Py.chars v) in
      if Py.ends_with_k trimmed then
        let remainder := Py.remove_commas (Py.strip (Py.drop_last trimmed)) in
        match parse_decimal remainder with
        | Some x => F64.mul x thousand
        | None => F64.nan
        end
      else
        match parse_decimal (Py.remove_commas trimmed) with
        | Some x => x
        | None => F64.nan
        end
  end.

(** The string that [clean_gdp_cell] hands to [float]. *)
Definition numeric_part (v : string) : list ascii :=
  let s := Py.strip (Py.chars v) in
  if Py.ends_with_k s
  then Py.strip (Py.remove_commas (Py.drop_last s))
  else Py.strip (Py.remove_commas s).

Definition has_suffix (v : string) : bool :=
  Py.ends_with_k (Py.strip (Py.chars v)).

End CellSpec.

(** ** The year filter as the specification words it *)

Module FilterSpec.
Import DataTransformer Analyzer.

(** The five predicates on one record, for the target year 2020 and the
    bounds 10 and 1e6. *)
Definition year_matches (r : MergedRecord) : bool := m_year r =? 2020.
Definition gdp_positive (r : MergedRecord) : bool := F64.ltb zero (gdp_per_capita r).
Definition life_positive (r : MergedRecord) : bool := F64.ltb zero (life_expectancy r).
Definition life_above_bound (r : MergedRecord) : bool := F64.ltb ten (life_expectancy r).
Definition gdp_below_bound (r : MergedRecord) : bool := F64.ltb (gdp_per_capita r) million.

Definition keep (r : MergedRecord) : bool :=
  year_matches r && gdp_positive r && life_positive r
  && life_above_bound r && gdp_below_bound r.

End FilterSpec.

(** ** Key sets of tables *)

Module JoinSpec.
Import DataTransformer.

(** The set of (country, year) keys of a table. *)
Definition keys {A : Type} (key : A -> string * Z) (l : list A) : gset (string * Z) :=
  list_to_set (map key l).

End JoinSpec.

(** ** Counting the cells of a wide table *)

Module MeltSpec.
Import DataTransformer CellSpec.

(** The number of cells of the year columns that satisfy [p]. *)
Definition count_cells {C : Type} (p : C -> bool) (df : WideTable C) : nat :=
  list_sum (map (fun col => length (List.filter p (snd col))) (year_cols df)).

(** A life-expectancy cell is present when it is not NaN. *)
Definition life_present (v : float) : bool := negb (F64.isna v).

(** A GDP cell is present when it is not absent. *)
Definition gdp_present (v : gdp_cell) : bool :=
  match v with Some _ => true | None => false end.

(** A GDP cell is usable when its cleaned value is not missing. *)
Definition gdp_usable (v : gdp_cell) : bool :=
  negb (F64.isna (clean_gdp_cell_spec v)).

(** The year that a label stands for. *)
Definition year_of (lab : string) : Z :=
  match Py.int_of_str (Py.chars lab) with Some y => y | None => 0 end.

(** Every year label is accepted by [int] and fits an int64 column. *)
Definition integer_labels {C : Type} (df : WideTable C) : Prop :=
  Forall (fun col => to_int64 (fst col) = Return (year_of (fst col))) (year_cols df).


(** The long records that the cells of a wide table stand for: column
    after column and, within a column, row after row, one record for each
    cell whose value [value_of] is not missing, with the country of its
    row, the year of its column and that value. *)
Definition cell_records {C : Type} (value_of : C -> float) (df : WideTable C)
  : list LongRecord :=
  flat_map
    (fun col =>
       map (fun cv => mkLong (fst cv) (year_of (fst col)) (value_of (snd cv)))
           (List.filter (fun cv => negb (F64.isna (value_of (snd cv))))
                        (combine (country_col df) (snd col))))
    (year_cols df).

(** A GDP table whose single cell is present but not a number. *)
Definition gdp_table_abc : WideTable gdp_cell :=
  mkWide ["Czechia"%string] [("2000"%string, [Some "abc"%string])].

(** A life table with one country, three years and one absent cell. *)
Definition life_table_czechia : WideTable float :=
  mkWide ["Czechia"%string]
    [("2000"%string, [F64.of_Z 75]); ("2001"%string, [F64.nan]);
     ("2002"%string, [F64.of_Z 76])].

(** The matching GDP table, one cell of which is not a number. *)
Definition gdp_table_czechia : WideTable gdp_cell :=
  mkWide ["Czechia"%string]
    [("2000"%string, [Some "15k"%string]); ("2001"%string, [Some "abc"%string]);
     ("2002"%string, [None])].

End MeltSpec.

(** ** Sample slices for the analyzer *)

Module Samples.
Import DataTransformer Analyzer.

Definition row (c : string) (y : Z) (le gdp : Z) : MergedRecord :=
  mkMerged c y (F64.of_Z le) (F64.of_Z gdp).

(** Two records of 2020 with the same GDP per capita. *)
Definition constant_gdp_slice : frame :=
  [row "A" 2020 70 5000; row "B" 2020 80 5000].

(** Three years of one country, in ascending order. *)
Definition czechia_sorted : frame :=
  [row "Czech Republic" 2000 75 15000; row "Czech Republic" 2001 77 15750;
   row "Czech Republic" 2002 76 16500].

(** The same three records in another order. *)
Definition czechia_shuffled : frame :=
  [row "Czech Republic" 2002 76 16500; row "Czech Republic" 2000 75 15000;
   row "Czech Republic" 2001 77 15750].

(** Two records of the same year followed by a later one, and the same
    table with the first two records exchanged. *)
Definition tied_years : frame :=
  [row "Czech Republic" 2000 70 15000; row "Czech Republic" 2000 80 15000;
   row "Czech Republic" 2001 75 15750].

Definition tied_years_swapped : frame :=
  [row "Czech Republic" 2000 80 15000; row "Czech Republic" 2000 70 15000;
   row "Czech Republic" 2001 75 15750].

(** A p-value routine that answers NaN everywhere, to run the samples. *)
Definition no_pvalue (t : float) (df : Z) : float := F64.nan.

Definition no_stat (x y : list float) : float * float := (F64.nan, F64.nan).

End Samples.

Module StoreSamples.
Import DataTransformer Analyzer Samples Store.

(** A heap with one merged slice, as [filter_2020_data] leaves it. *)
Definition one_slice : heap := [Merged (mkObj constant_gdp_slice None)].

(** Stand-ins for the library routines, to run the samples. *)
Definition same (x : float) : float := x.
Definition fit_nothing (y x : list float) : outcome unit := Return tt.

(** A heap with the two raw tables of one country, as the loader leaves
    them. *)
Definition raw_tables : heap :=
  [WideLife MeltSpec.life_table_czechia; WideGdp MeltSpec.gdp_table_czechia].

End StoreSamples.

(** ** visualizer.py: which records each scatter call receives *)

Module Visualizer.
Import DataTransformer Analyzer.

(** [highlight_countries]: a dict from country to colour, as the list of
    its items in insertion order. *)
Definition highlights : Type := list (string * string).

(** [country in highlight_countries.keys()] *)
Definition is_key (hl : highlights) (c : string) : bool :=
  existsb (fun kc => bool_decide (fst kc = c)) hl.

(** [df[~df["country"].isin(highlight_countries.keys())]] *)
Definition others (df : frame) (hl : highlights) : frame :=
  select (fun r => negb (is_key hl (m_country r))) df.

(** [df[df["country"] == country]] *)
Definition subset (df : frame) (c : string) : frame :=
  select (fun r => bool_decide (m_country r = c)) df.

(** One call to [plt.scatter]: its label, its colour and its records. *)
Record series : Type := mkSeries {
  label : string;
  color : string;
  points : frame
}.

(** The scatter calls of [plot_scatter_log] and of [plot_regression_log],
    in order: the other countries first, then one call per highlighted
    country that has records. *)
Definition scatter_series (df : frame) (hl : highlights) : list series :=
  mkSeries "Countries (2020)" "lightgray" (others df hl)
  :: flat_map (fun kc => match subset df (fst kc) with
                         | [] => []
                         | s => [mkSeries (fst kc) (snd kc) s]
                         end) hl.

End Visualizer.

(** ** main.py: the analysis steps of [main] *)

Module Main.
Import DataTransformer Analyzer Store.

(** Sequencing of two calls: the second runs on the heap the first leaves,
    unless the first raises. *)
Definition then_st {A B : Type} (m : st A) (k : A -> st B) : st B :=
  fun h =>
    match m h with
    | (h', Return a) => k a h'
    | (h', Raise e) => (h', Raise e)
    end.

Definition ret_st {A : Type} (a : A) : st A := fun h => (h, Return a).

(** The heap [h'] has every table of [h], unchanged. *)
Definition extends (h h' : heap) : Prop :=
  forall r : ref, (r < length h)%nat -> h' !! r = h !! r.

(** The calls of [main] that act outside the tables: creating the
    visualizer (and its directory), the three plots and the printed summary
    of the trend model.  Each may raise; none assigns into a table. *)
Record outside (Model : Type) : Type := mkOutside {
  viz_init : outcome unit;
  plot_scatter_log : merged_obj -> outcome unit;
  plot_regression_log : merged_obj -> Model -> outcome unit;
  summary : Model -> outcome unit;
  plot_czech_trend : merged_obj -> Model -> outcome unit
}.
Arguments viz_init {Model} _.
Arguments plot_scatter_log {Model} _ _.
Arguments plot_regression_log {Model} _ _ _.
Arguments summary {Model} _ _.
Arguments plot_czech_trend {Model} _ _ _.

(** A call that leaves the heap alone. *)
Definition outside_call {A : Type} (r : outcome A) : st A := fun h => (h, r).

(** A call that reads one merged table and leaves the heap alone. *)
Definition reading {A : Type} (f : merged_obj -> outcome A) (df : ref) : st A :=
  fun h =>
    match h !! df with
    | Some (Merged o) => (h, f o)
    | _ => (h, Raise KeyError)
    end.

Section Library.

Variable pearson_stat : list float -> list float -> float * float.
Variable t_pvalue : float -> Z -> float.
Variable log10 : float -> float.
Variable Model : Type.
Variable ols_fit : list float -> list float -> outcome Model.
Variable out : outside Model.

(** Steps 2 to 6 of [main], on the two raw tables the loader has read, in
    the order of the source: the plots of step 4 come after the regression
    of step 3, the summary and the plot of step 5 after the trend.  The
    [print] calls of floats and table heads are taken not to raise. *)
Definition main (life_raw gdp_raw : ref)
  : st ((float * float) * Model * Model * (float * float)) :=
  then_st (Store.melt_life_expectancy life_raw) (fun life_long =>
  then_st (Store.melt_gdp_per_capita gdp_raw) (fun gdp_long =>
  then_st (Store.merge_datasets life_long gdp_long) (fun merged_df =>
  then_st (Store.filter_2020_data merged_df) (fun df_2020_filtered =>
  then_st (Store.compute_pearson pearson_stat df_2020_filtered) (fun pearson =>
  then_st (Store.regression_log_gdp log10 Model ols_fit df_2020_filtered) (fun model_log =>
  then_st (outside_call (viz_init out)) (fun _ =>
  then_st (reading (plot_scatter_log out) df_2020_filtered) (fun _ =>
  then_st (reading (fun o => plot_regression_log out o model_log) df_2020_filtered) (fun _ =>
  then_st (Store.trend_czech Model ols_fit merged_df) (fun trend =>
  then_st (outside_call (summary out (snd trend))) (fun _ =>
  then_st (reading (fun o => plot_czech_trend out o (snd trend)) (fst trend)) (fun _ =>
  then_st (Store.paired_ttest_czech t_pvalue (fst trend)) (fun ttest =>
  ret_st (pearson, model_log, snd trend, ttest)))))))))))))).

End Library.

End Main.

Module MainSamples.

(** Outside calls that all succeed. *)
Definition quiet : Main.outside unit :=
  Main.mkOutside unit (Return tt) (fun _ => Return tt) (fun _ _ => Return tt)
    (fun _ => Return tt) (fun _ _ => Return tt).

End MainSamples.

(** ** Further sample tables *)

Module MoreSamples.
Import DataTransformer Analyzer Samples.




Definition long (c : string) (y : Z) (v : Z) : LongRecord :=
  mkLong c y (F64.of_Z v).

Definition life_long_sample : list LongRecord :=
  [long "Czechia" 2019 79; long "Czechia" 2020 78; long "Norway" 2020 83].

Definition gdp_long_sample : list LongRecord :=
  [long "Czechia" 2020 38000; long "Norway" 2020 78000; long "Norway" 2021 80000].

(** A merged table with one usable record of 2020 per country. *)
Definition merged_sample : frame :=
  [row "Czechia" 2020 78 38000; row "Norway" 2020 83 78000;
   row "Czechia" 2019 79 37000].

End MoreSamples.

(** The records that the Czech trend is fitted on. *)
Definition in_trend_window (r : DataTransformer.MergedRecord) : bool :=
  bool_decide (DataTransformer.m_country r = "Czech Republic"%string)
  && ((2000 <=? DataTransformer.m_year r) && (DataTransformer.m_year r <=? 2020)).

(** Rows in ascending order of year. *)
Definition year_le (a b : DataTransformer.MergedRecord) : Prop :=
  DataTransformer.m_year a <= DataTransformer.m_year b.

Definition year_lt (a b : DataTransformer.MergedRecord) : Prop :=
  DataTransformer.m_year a < DataTransformer.m_year b.

(** * Properties *)

(** ** Stripping and comma removal *)

Section Strip.
Variable p q : ascii -> bool.
Hypothesis kept : forall c, p c = true -> q c = true.

Lemma lstrip_app (a b : list ascii) :
  Py.lstrip_by p (a ++ b) =
  if forallb p a then Py.lstrip_by p b else Py.lstrip_by p a ++ b.
Proof.
  induction a as [|c a IH]; simpl; [reflexivity|].
  destruct (p c); simpl; [exact IH | reflexivity].
Qed.

Lemma lstrip_all (a : list ascii) :
  forallb p a = true -> Py.lstrip_by p a = [].
Proof.
  induction a as [|c a IH]; simpl; [reflexivity|].
  destruct (p c); simpl; [exact IH | discriminate].
Qed.

Lemma forallb_rev (l : list ascii) : forallb p (rev l) = forallb p l.
Proof.
  induction l as [|c l IH]; [reflexivity|]. simpl.
  rewrite forallb_app, IH. simpl. rewrite andb_true_r. apply andb_comm.
Qed.

Lemma rstrip_cons (c : ascii) (l : list ascii) :
  Py.rstrip_by p (c :: l) =
  if forallb p l then (if p c then [] else [c]) else c :: Py.rstrip_by p l.
Proof.
  unfold Py.rstrip_by; simpl. rewrite lstrip_app, forallb_rev.
  destruct (forallb p l); simpl.
  - destruct (p c); reflexivity.
  - rewrite rev_app_distr. reflexivity.
Qed.

Lemma lstrip_rstrip_comm (l : list ascii) :
  Py.lstrip_by p (Py.rstrip_by p l) = Py.rstrip_by p (Py.lstrip_by p l).
Proof.
  induction l as [|c l IH]; [reflexivity|].
  rewrite rstrip_cons. simpl.
  destruct (p c) eqn:Hc.
  - destruct (forallb p l) eqn:Hl.
    + rewrite (lstrip_all l Hl). reflexivity.
    + simpl. rewrite Hc. exact IH.
  - rewrite rstrip_cons.
    destruct (forallb p l); simpl; rewrite Hc; reflexivity.
Qed.

Lemma lstrip_filter_lstrip (l : list ascii) :
  Py.lstrip_by p (List.filter q (Py.lstrip_by p l)) =
  Py.lstrip_by p (List.filter q l).
Proof.
  induction l as [|c l IH]; [reflexivity|]. simpl.
  destruct (p c) eqn:Hc; [|reflexivity].
  rewrite (kept c Hc). simpl. rewrite Hc. exact IH.
Qed.

Lemma rstrip_filter_rstrip (l : list ascii) :
  Py.rstrip_by p (List.filter q (Py.rstrip_by p l)) =
  Py.rstrip_by p (List.filter q l).
Proof.
  unfold Py.rstrip_by.
  rewrite <- !filter_rev, rev_involutive, lstrip_filter_lstrip.
  reflexivity.
Qed.

Lemma strip_filter_strip (l : list ascii) :
  Py.strip_by p (List.filter q (Py.strip_by p l)) =
  Py.strip_by p (List.filter q l).
Proof.
  unfold Py.strip_by.
  rewrite <- (lstrip_rstrip_comm l), lstrip_filter_lstrip.
  rewrite <- (lstrip_rstrip_comm (List.filter q (Py.rstrip_by p l))).
  rewrite rstrip_filter_rstrip.
  apply lstrip_rstrip_comm.
Qed.

End Strip.

Lemma strip_remove_commas_strip (l : list ascii) :
  Py.strip (Py.remove_commas (Py.strip l)) = Py.strip (Py.remove_commas l).
Proof.
  apply strip_filter_strip.
  intros c Hc. unfold Py.is_comma.
  destruct (N.eqb_spec (Py.code c) 44) as [E|]; [|reflexivity].
  unfold Py.isspace in Hc. rewrite E in Hc. discriminate.
Qed.

(** ** clean_gdp_cell *)

Section CleanGdpCell.
Import DataTransformer CellSpec.
Local Open Scope string_scope.

Lemma clean_gdp_cell_unfold (v : string) :
  clean_gdp_cell (Some v) =
  catch_ValueError
    (x <-- py_float (numeric_part v) ;;
     Return (if has_suffix v then F64.mul x thousand else x))
    F64.nan.
Proof.
  unfold clean_gdp_cell, numeric_part, has_suffix.
  destruct (Py.ends_with_k (Py.strip (Py.chars v))); [reflexivity|].
  destruct (py_float _); reflexivity.
Qed.

Lemma py_float_raises_only_ValueError (l : list ascii) (e : exn) :
  py_float l = Raise e -> e = ValueError.
Proof.
  unfold py_float. destruct (Py.float_of_str l); congruence.
Qed.

(** C1: [clean_gdp_cell] returns on every input, an absent cell or any
    string: an absent cell gives NaN, a string whose numeric part [float]
    rejects gives NaN, and a string it accepts gives the parsed value
    (times 1000 under a [k] suffix).  No case raises. *)
Theorem clean_gdp_cell_total (val : gdp_cell) :
  match val with
  | None => clean_gdp_cell val = Return F64.nan
  | Some v =>
      match py_float (numeric_part v) with
      | Raise _ => clean_gdp_cell val = Return F64.nan
      | Return x =>
          clean_gdp_cell val =
          Return (if has_suffix v then F64.mul x thousand else x)
      end
  end.
Proof.
  destruct val as [v|]; [|reflexivity].
  rewrite clean_gdp_cell_unfold.
  destruct (py_float (numeric_part v)) as [x|e] eqn:E; [reflexivity|].
  apply py_float_raises_only_ValueError in E. subst e. reflexivity.
Qed.

Lemma clean_gdp_cell_refines_spec (raw : gdp_cell) :
  clean_gdp_cell raw = Return (clean_gdp_cell_spec raw).
Proof.
  destruct raw as [v|]; [|reflexivity].
  unfold clean_gdp_cell, clean_gdp_cell_spec, parse_decimal, py_float.
  destruct (Py.ends_with_k (Py.strip (Py.chars v))).
  - rewrite strip_remove_commas_strip.
    destruct (Py.float_of_str _); reflexivity.
  - destruct (Py.float_of_str _); reflexivity.
Qed.

(** Why the remainder is trimmed before it is parsed: [float] alone does
    not skip the separators 28..31 that [strip] removes. *)
Lemma separator_after_comma_removal :
  let cell := String "1" (String (ascii_of_nat 28) (String "," EmptyString)) in
  Py.float_of_str (Py.remove_commas (Py.chars cell)) = None /\
  clean_gdp_cell (Some cell) = Return (F64.of_Z 1).
Proof. split; vm_compute; reflexivity. Qed.

(** C2: the five sample cells and the two missing ones evaluate as
    stated, and on every cell the code computes what the parsing
    algorithm of the specification describes: trim, then under a [k] or
    [K] suffix strip it, remove the commas, parse and multiply by 1000,
    and otherwise remove the commas and parse. *)
Theorem clean_gdp_cell_examples_and_algorithm :
  clean_gdp_cell (Some "27.7k") = Return (F64.of_Z 27700) /\
  clean_gdp_cell (Some "5380") = Return (F64.of_Z 5380) /\
  clean_gdp_cell (Some "1,234") = Return (F64.of_Z 1234) /\
  clean_gdp_cell (Some "1.2K") = Return (F64.of_Z 1200) /\
  clean_gdp_cell (Some "") = Return F64.nan /\
  clean_gdp_cell None = Return F64.nan /\
  clean_gdp_cell (Some "abc") = Return F64.nan /\
  forall raw : gdp_cell, clean_gdp_cell raw = Return (clean_gdp_cell_spec raw).
Proof.
  do 7 (split; [vm_compute; reflexivity|]).
  exact clean_gdp_cell_refines_spec.
Qed.

End CleanGdpCell.

(** ** filter_2020_data *)

Section Filter2020.
Import DataTransformer Analyzer FilterSpec.

Lemma filter_filter {A : Type} (p q : A -> bool) (l : list A) :
  List.filter q (List.filter p l) = List.filter (fun x => p x && q x) l.
Proof.
  induction l as [|x l IH]; [reflexivity|]. simpl.
  destruct (p x); simpl; [destruct (q x)|]; rewrite ?IH; reflexivity.
Qed.

Lemma filter_2020_data_as_filter (df : frame) :
  filter_2020_data df = List.filter keep df.
Proof.
  unfold filter_2020_data, select. rewrite !filter_filter.
  apply filter_ext. intros r.
  unfold keep, year_matches, gdp_positive, life_positive,
    life_above_bound, gdp_below_bound.
  rewrite !andb_assoc. reflexivity.
Qed.

Lemma keep_true (r : MergedRecord) :
  keep r = true <->
  m_year r = 2020 /\
  F64.ltb zero (gdp_per_capita r) = true /\
  F64.ltb zero (life_expectancy r) = true /\
  F64.ltb ten (life_expectancy r) = true /\
  F64.ltb (gdp_per_capita r) million = true.
Proof.
  unfold keep, year_matches, gdp_positive, life_positive,
    life_above_bound, gdp_below_bound.
  rewrite !andb_true_iff, Z.eqb_eq. tauto.
Qed.

(** C3: [filter_2020_data] keeps, in their order, exactly the records
    that pass all five predicates: year equal to 2020, gdp_per_capita > 0,
    life_expectancy > 0, life_expectancy > 10 and gdp_per_capita < 1e6.
    A record failing one of them is left out, and the call returns a
    table on every input. *)
Theorem filter_2020_data_keeps_conjunction (df : frame) :
  filter_2020_data df = List.filter keep df /\
  forall r : MergedRecord,
    In r (filter_2020_data df) <->
    In r df /\
    m_year r = 2020 /\
    F64.ltb zero (gdp_per_capita r) = true /\
    F64.ltb zero (life_expectancy r) = true /\
    F64.ltb ten (life_expectancy r) = true /\
    F64.ltb (gdp_per_capita r) million = true.
Proof.
  split; [apply filter_2020_data_as_filter|].
  intros r. rewrite filter_2020_data_as_filter, filter_In, keep_true.
  reflexivity.
Qed.

Lemma filter_idempotent {A : Type} (p : A -> bool) (l : list A) :
  List.filter p (List.filter p l) = List.filter p l.
Proof.
  rewrite filter_filter. apply filter_ext.
  intros x. apply andb_diag.
Qed.

(** C9: the year filter is idempotent: filtering the output of
    [filter_2020_data] again returns that same output. *)
Theorem filter_2020_data_idempotent (df : frame) :
  filter_2020_data (filter_2020_data df) = filter_2020_data df.
Proof.
  rewrite !filter_2020_data_as_filter. apply filter_idempotent.
Qed.

End Filter2020.

(** ** merge_datasets *)

Section Merge.
Import DataTransformer JoinSpec.

Lemma in_pd_merge {A B : Type} (ka : A -> string * Z) (kb : B -> string * Z)
  (l : list A) (r : list B) (a : A) (b : B) :
  In (a, b) (pd_merge ka kb l r) <-> In a l /\ In b r /\ ka a = kb b.
Proof.
  unfold pd_merge. rewrite in_flat_map. split.
  - intros (a' & Ha & Hin). apply in_map_iff in Hin as (b' & E & Hb).
    inversion E; subst a' b'. apply filter_In in Hb as [Hb Hk].
    apply bool_decide_eq_true in Hk. auto.
  - intros (Ha & Hb & Hk). exists a. split; [exact Ha|].
    apply in_map, filter_In. split; [exact Hb|].
    apply bool_decide_eq_true. exact Hk.
Qed.

Lemma in_keys_merge (a b : list LongRecord) (k : string * Z) :
  In k (map merged_key (merge_datasets a b)) <->
  In k (map long_key a) /\ In k (map long_key b).
Proof.
  unfold merge_datasets. rewrite map_map. rewrite !in_map_iff. split.
  - intros ([x y] & E & Hin). apply in_pd_merge in Hin as (Hx & Hy & Hk).
    simpl in E. subst k. split.
    + exists x. split; [reflexivity | exact Hx].
    + exists y. split; [symmetry; exact Hk | exact Hy].
  - intros [(x & Ex & Hx) (y & Ey & Hy)].
    exists (x, y). split; [exact Ex|].
    apply in_pd_merge. repeat split; try assumption. congruence.
Qed.

Lemma keys_merge (a b : list LongRecord) :
  keys merged_key (merge_datasets a b) = keys long_key a ∩ keys long_key b.
Proof.
  apply set_eq. intros k. unfold keys.
  rewrite elem_of_intersection, !elem_of_list_to_set, !list_elem_of_In.
  apply in_keys_merge.
Qed.

(** C4: [merge_datasets] is an inner join on (country, year): the key
    set of the merged table is the intersection of the key sets of the
    two inputs, and merging the two tables in the other order gives the
    same key set. *)
Theorem merge_datasets_keys_intersection (life_long gdp_long : list LongRecord) :
  keys merged_key (merge_datasets life_long gdp_long)
    = keys long_key life_long ∩ keys long_key gdp_long /\
  keys merged_key (merge_datasets gdp_long life_long)
    = keys merged_key (merge_datasets life_long gdp_long).
Proof.
  split; [apply keys_merge|].
  rewrite !keys_merge. apply (comm_L (∩)).
Qed.

End Merge.

(** ** The melts *)

Section Melt.
Import DataTransformer CellSpec MeltSpec.

Lemma map_snd_combine {A B : Type} (a : list A) (b : list B) :
  length b = length a -> map snd (combine a b) = b.
Proof.
  revert b. induction a as [|x a IH]; intros [|y b] H; simpl in *;
    try reflexivity; try discriminate.
  f_equal. apply IH. lia.
Qed.

Lemma melt_values {C : Type} (df : WideTable C) :
  well_formed df ->
  map snd (melt df) = concat (map snd (year_cols df)).
Proof.
  unfold well_formed, melt. destruct df as [cs cols]. simpl.
  induction cols as [|col cols IH]; intros H; [reflexivity|].
  inversion H as [|? ? Hc Hcols]; subst. simpl.
  rewrite map_app, map_map, IH by assumption. simpl.
  f_equal. apply map_snd_combine. exact Hc.
Qed.

Lemma count_cells_concat {C : Type} (p : C -> bool) (df : WideTable C) :
  length (List.filter p (concat (map snd (year_cols df)))) = count_cells p df.
Proof.
  unfold count_cells. induction (year_cols df) as [|col cols IH]; [reflexivity|].
  simpl. rewrite List.filter_app, length_app, IH. reflexivity.
Qed.

Lemma melt_labels {C : Type} (df : WideTable C) :
  integer_labels df ->
  Forall (fun r => to_int64 (snd (fst r)) = Return (year_of (snd (fst r)))) (melt df).
Proof.
  unfold integer_labels, melt. intros H.
  apply List.Forall_forall. intros r Hr.
  apply in_flat_map in Hr as (col & Hcol & Hr).
  apply in_map_iff in Hr as (cv & E & _). subst r. simpl.
  rewrite List.Forall_forall in H. apply H. exact Hcol.
Qed.

Lemma astype_int_ok {C : Type} (rows : list (string * string * C)) :
  Forall (fun r => to_int64 (snd (fst r)) = Return (year_of (snd (fst r)))) rows ->
  astype_int rows =
  Return (map (fun r => (fst (fst r), year_of (snd (fst r)), snd r)) rows).
Proof.
  induction rows as [|[[c lab] v] rows IH]; intros H; [reflexivity|].
  inversion H as [|? ? Hlab Hrows]; subst. simpl in *.
  rewrite (IH Hrows), Hlab. reflexivity.
Qed.

Lemma apply_cells_clean (rows : list (string * Z * gdp_cell)) :
  apply_cells clean_gdp_cell rows =
  Return (map (fun r => mkLong (fst (fst r)) (snd (fst r))
                               (clean_gdp_cell_spec (snd r))) rows).
Proof.
  induction rows as [|[[c y] v] rows IH]; [reflexivity|]. simpl.
  rewrite clean_gdp_cell_refines_spec, IH. reflexivity.
Qed.

Lemma length_filter_map {A B : Type} (f : A -> B) (p : B -> bool) (l : list A) :
  length (List.filter p (map f l)) = length (List.filter (fun x => p (f x)) l).
Proof.
  induction l as [|x l IH]; [reflexivity|]. simpl.
  destruct (p (f x)); simpl; rewrite IH; reflexivity.
Qed.

Lemma melt_life_expectancy_count (df : WideTable float) :
  well_formed df -> integer_labels df ->
  exists l, melt_life_expectancy df = Return l /\
            length l = count_cells life_present df.
Proof.
  intros Hwf Hlab. unfold melt_life_expectancy.
  rewrite (astype_int_ok _ (melt_labels df Hlab)). simpl.
  eexists. split; [reflexivity|].
  rewrite <- count_cells_concat, <- (melt_values df Hwf).
  unfold dropna. rewrite !length_filter_map.
  reflexivity.
Qed.

Lemma melt_gdp_per_capita_count (df : WideTable gdp_cell) :
  well_formed df -> integer_labels df ->
  exists l, melt_gdp_per_capita df = Return l /\
            length l = count_cells gdp_usable df.
Proof.
  intros Hwf Hlab. unfold melt_gdp_per_capita.
  rewrite (astype_int_ok _ (melt_labels df Hlab)). simpl.
  rewrite apply_cells_clean. simpl.
  eexists. split; [reflexivity|].
  rewrite <- count_cells_concat, <- (melt_values df Hwf).
  unfold dropna. rewrite !length_filter_map.
  reflexivity.
Qed.

End Melt.


Section MeltCounts.
Import DataTransformer CellSpec MeltSpec.

Lemma filter_map_swap {A B : Type} (f : A -> B) (p : B -> bool) (l : list A) :
  List.filter p (map f l) = map f (List.filter (fun x => p (f x)) l).
Proof.
  induction l as [|x l IH]; [reflexivity|]. simpl.
  destruct (p (f x)); simpl; rewrite IH; reflexivity.
Qed.

Lemma dropna_melt {C : Type} (value_of : C -> float) (df : WideTable C) :
  dropna (map (fun r => mkLong (fst (fst r)) (year_of (snd (fst r)))
                               (value_of (snd r))) (melt df))
  = cell_records value_of df.
Proof.
  unfold dropna, melt, cell_records.
  induction (year_cols df) as [|col cols IH]; [reflexivity|]. simpl.
  rewrite map_app, List.filter_app, IH. f_equal.
  rewrite map_map, filter_map_swap. reflexivity.
Qed.

Lemma melt_life_expectancy_records (df : WideTable float) :
  integer_labels df ->
  melt_life_expectancy df = Return (cell_records (fun v => v) df).
Proof.
  intros Hlab. unfold melt_life_expectancy.
  rewrite (astype_int_ok _ (melt_labels df Hlab)). simpl.
  rewrite map_map. simpl. rewrite <- (dropna_melt (fun v => v) df). reflexivity.
Qed.

Lemma melt_gdp_per_capita_records (df : WideTable gdp_cell) :
  integer_labels df ->
  melt_gdp_per_capita df = Return (cell_records clean_gdp_cell_spec df).
Proof.
  intros Hlab. unfold melt_gdp_per_capita.
  rewrite (astype_int_ok _ (melt_labels df Hlab)). simpl.
  rewrite apply_cells_clean. simpl.
  rewrite map_map. simpl. rewrite <- (dropna_melt clean_gdp_cell_spec df). reflexivity.
Qed.

(** C8, as the code has it: for a wide table with one cell per row in
    every column and year labels that are integers of the int64 range,
    [melt_life_expectancy] returns exactly one record for each cell that
    is not NaN, with the country, the year and the value of that cell, and
    [melt_gdp_per_capita] returns exactly one record for each cell whose
    cleaned value is not missing, with that value; so the number of records
    is the number of such cells. *)
Theorem melt_record_counts
  (life_df : WideTable float) (gdp_df : WideTable gdp_cell) :
  well_formed life_df -> integer_labels life_df ->
  well_formed gdp_df -> integer_labels gdp_df ->
  (melt_life_expectancy life_df = Return (cell_records (fun v => v) life_df) /\
   length (cell_records (fun v => v) life_df) = count_cells life_present life_df) /\
  (melt_gdp_per_capita gdp_df = Return (cell_records clean_gdp_cell_spec gdp_df) /\
   length (cell_records clean_gdp_cell_spec gdp_df) = count_cells gdp_usable gdp_df).
Proof.
  intros Hwl Hll Hwg Hlg. split; split.
  - apply melt_life_expectancy_records. exact Hll.
  - destruct (melt_life_expectancy_count life_df Hwl Hll) as (l & E & Hlen).
    rewrite (melt_life_expectancy_records life_df Hll) in E.
    inversion E; subst l. exact Hlen.
  - apply melt_gdp_per_capita_records. exact Hlg.
  - destruct (melt_gdp_per_capita_count gdp_df Hwg Hlg) as (l & E & Hlen).
    rewrite (melt_gdp_per_capita_records gdp_df Hlg) in E.
    inversion E; subst l. exact Hlen.
Qed.

Lemma melt_record_counts_witness :
  (melt_life_expectancy life_table_czechia
     = Return (cell_records (fun v => v) life_table_czechia) /\
   length (cell_records (fun v => v) life_table_czechia)
     = count_cells life_present life_table_czechia) /\
  (melt_gdp_per_capita gdp_table_czechia
     = Return (cell_records clean_gdp_cell_spec gdp_table_czechia) /\
   length (cell_records clean_gdp_cell_spec gdp_table_czechia)
     = count_cells gdp_usable gdp_table_czechia).
Proof.
  apply melt_record_counts.
  - repeat constructor.
  - repeat (constructor; [vm_compute; reflexivity|]). constructor.
  - repeat constructor.
  - repeat (constructor; [vm_compute; reflexivity|]). constructor.
Defined.

(** The cell ["abc"] is present in the wide GDP table and no record
    comes out for it. *)
Lemma melt_gdp_drops_present_cell :
  well_formed gdp_table_abc /\
  integer_labels gdp_table_abc /\
  melt_gdp_per_capita gdp_table_abc = Return [] /\
  count_cells gdp_present gdp_table_abc = 1%nat.
Proof.
  split; [repeat constructor|].
  split; [repeat (constructor; [vm_compute; reflexivity|]); constructor|].
  split; vm_compute; reflexivity.
Qed.

End MeltCounts.

(** ** compute_pearson *)

Section Pearson.
Import DataTransformer Analyzer Samples.

Lemma compute_pearson_cases
  (pearson_stat : list float -> list float -> float * float) (df : frame) :
  compute_pearson pearson_stat df =
  if (length df <? 2)%nat then Raise ValueError
  else if Scipy.is_constant (map gdp_per_capita df)
          || Scipy.is_constant (map life_expectancy df)
       then Return (F64.nan, F64.nan)
       else Return (pearson_stat (map gdp_per_capita df) (map life_expectancy df)).
Proof.
  unfold compute_pearson, Scipy.pearsonr.
  rewrite !length_map, Nat.eqb_refl. reflexivity.
Qed.

(** C6, as the code has it: with fewer than two records the call fails,
    with the [ValueError] of the library; with two records or more and a
    constant gdp_per_capita or life_expectancy column it does not fail
    but returns (NaN, NaN); otherwise it returns the library's r and
    p-value for the two columns. *)
Theorem compute_pearson_outcomes
  (pearson_stat : list float -> list float -> float * float) (df : frame) :
  compute_pearson pearson_stat df =
  if (length df <? 2)%nat then Raise ValueError
  else if Scipy.is_constant (map gdp_per_capita df)
          || Scipy.is_constant (map life_expectancy df)
       then Return (F64.nan, F64.nan)
       else Return (pearson_stat (map gdp_per_capita df) (map life_expectancy df)).
Proof. apply compute_pearson_cases. Qed.

(** On two records with the same gdp_per_capita nothing is raised. *)
Lemma compute_pearson_constant_column_returns :
  ~ (forall (pearson_stat : list float -> list float -> float * float) (df : frame),
        (length df < 2)%nat \/
        Scipy.is_constant (map gdp_per_capita df) = true \/
        Scipy.is_constant (map life_expectancy df) = true ->
        compute_pearson pearson_stat df = Raise InsufficientData).
Proof.
  intros H.
  specialize (H no_stat constant_gdp_slice).
  rewrite compute_pearson_cases in H.
  assert (E : Scipy.is_constant (map gdp_per_capita constant_gdp_slice) = true)
    by (vm_compute; reflexivity).
  rewrite E in H. simpl in H.
  specialize (H (or_intror (or_introl eq_refl))). discriminate H.
Qed.

End Pearson.

(** ** sort_values *)

Section SortValues.
Import DataTransformer Analyzer.

Lemma insert_by_year_perm (r : MergedRecord) (l : frame) :
  Permutation (insert_by_year r l) (r :: l).
Proof.
  induction l as [|x l IH]; simpl; [reflexivity|].
  destruct (m_year r <? m_year x); [reflexivity|].
  rewrite IH. apply perm_swap.
Qed.

Lemma fold_insert_perm (l acc : frame) :
  Permutation (fold_left (fun a r => insert_by_year r a) l acc) (acc ++ l).
Proof.
  revert acc. induction l as [|x l IH]; intros acc; simpl.
  - rewrite app_nil_r. reflexivity.
  - rewrite IH, insert_by_year_perm. apply Permutation_middle.
Qed.

Lemma sort_values_perm (df : frame) : Permutation (sort_values df) df.
Proof. apply (fold_insert_perm df []). Qed.

Lemma insert_by_year_sorted (r : MergedRecord) (l : frame) :
  StronglySorted year_le l -> StronglySorted year_le (insert_by_year r l).
Proof.
  induction l as [|x l IH]; intros H; simpl.
  - constructor; constructor.
  - inversion H as [|? ? Hl Hx]; subst.
    destruct (Z.ltb_spec (m_year r) (m_year x)) as [Hlt|Hge].
    + constructor; [exact H|]. constructor; [unfold year_le; lia|].
      eapply List.Forall_impl; [|exact Hx]. unfold year_le. intros a Ha. lia.
    + constructor; [apply IH; exact Hl|].
      eapply Permutation_Forall; [symmetry; apply insert_by_year_perm|].
      constructor; [exact Hge | exact Hx].
Qed.

Lemma fold_insert_sorted (l acc : frame) :
  StronglySorted year_le acc ->
  StronglySorted year_le (fold_left (fun a r => insert_by_year r a) l acc).
Proof.
  revert acc. induction l as [|x l IH]; intros acc H; simpl; [exact H|].
  apply IH, insert_by_year_sorted, H.
Qed.

Lemma sort_values_sorted (df : frame) : StronglySorted year_le (sort_values df).
Proof. apply fold_insert_sorted. constructor. Qed.

(** Two tables sorted by strictly increasing year with the same rows are
    equal. *)
Lemma strictly_sorted_unique (l1 l2 : frame) :
  StronglySorted year_lt l1 -> StronglySorted year_lt l2 ->
  Permutation l1 l2 -> l1 = l2.
Proof.
  revert l2. induction l1 as [|x l1 IH]; intros l2 H1 H2 P.
  - apply Permutation_nil in P. congruence.
  - destruct l2 as [|y l2]; [apply Permutation_sym, Permutation_nil in P; discriminate|].
    inversion H1 as [|? ? S1 F1]; inversion H2 as [|? ? S2 F2]; subst.
    assert (E : x = y).
    { assert (Hx : In x (y :: l2)) by (eapply Permutation_in; [exact P | left; reflexivity]).
      assert (Hy : In y (x :: l1))
        by (eapply Permutation_in; [symmetry; exact P | left; reflexivity]).
      destruct Hx as [Hx|Hx]; [congruence|].
      destruct Hy as [Hy|Hy]; [congruence|].
      rewrite List.Forall_forall in F1, F2.
      specialize (F1 y Hy). specialize (F2 x Hx).
      unfold year_lt in *. lia. }
    subst y. f_equal. apply IH; try assumption.
    eapply Permutation_cons_inv; exact P.
Qed.

Lemma sorted_nodup_strict (l : frame) :
  StronglySorted year_le l -> List.NoDup (map m_year l) ->
  StronglySorted year_lt l.
Proof.
  induction l as [|x l IH]; intros S N; [constructor|].
  inversion S as [|? ? Sl Fx]; subst. simpl in N.
  inversion N as [|? ? Nx Nl]; subst.
  constructor; [apply IH; assumption|].
  rewrite List.Forall_forall in *. intros y Hy.
  specialize (Fx y Hy). unfold year_le, year_lt in *.
  assert (m_year x <> m_year y).
  { intros E. apply Nx. rewrite E. apply in_map. exact Hy. }
  lia.
Qed.

Lemma sort_values_permutation_invariant (a b : frame) :
  Permutation a b -> List.NoDup (map m_year a) ->
  sort_values a = sort_values b.
Proof.
  intros P N.
  assert (Pa := sort_values_perm a). assert (Pb := sort_values_perm b).
  apply strictly_sorted_unique.
  - apply sorted_nodup_strict; [apply sort_values_sorted|].
    eapply Permutation_NoDup; [|exact N].
    apply Permutation_map. symmetry. exact Pa.
  - apply sorted_nodup_strict; [apply sort_values_sorted|].
    eapply Permutation_NoDup; [|exact N].
    apply Permutation_map. rewrite Pb. exact P.
  - rewrite Pa, Pb. exact P.
Qed.

End SortValues.

(** ** paired_ttest_czech *)

Section PairedTtest.
Import DataTransformer Analyzer Samples.

Lemma diffs_cons (a b : float) (v : list float) :
  diffs (a :: b :: v) = F64.sub b a :: diffs (b :: v).
Proof. reflexivity. Qed.

(** The [i]-th difference is [v[i+1] - v[i]]. *)
Lemma diffs_lookup (v : list float) (i : nat) :
  diffs v !! i =
  match v !! S i, v !! i with
  | Some b, Some a => Some (F64.sub b a)
  | _, _ => None
  end.
Proof.
  revert i. induction v as [|a [|b v] IH]; intros i.
  - reflexivity.
  - destruct i; reflexivity.
  - rewrite diffs_cons. destruct i as [|i]; [reflexivity|].
    simpl. rewrite IH. reflexivity.
Qed.

Lemma strictly_sorted_is_sorted (l : frame) :
  StronglySorted year_lt l -> StronglySorted year_le l.
Proof.
  induction 1 as [|x l S IH F]; constructor; [exact IH|].
  eapply List.Forall_impl; [|exact F]. unfold year_lt, year_le. intros a Ha. lia.
Qed.

Lemma strictly_sorted_nodup (l : frame) :
  StronglySorted year_lt l -> List.NoDup (map m_year l).
Proof.
  induction 1 as [|x l S IH F]; simpl; constructor; [|exact IH].
  intros Hin. apply in_map_iff in Hin as (y & E & Hy).
  rewrite List.Forall_forall in F. specialize (F y Hy).
  unfold year_lt in F. lia.
Qed.

(** A table in strictly ascending order of year is the only ordering of
    its rows by year: every sort returns it as it is. *)
Lemma strictly_sorted_only_order (df l : frame) :
  StronglySorted year_lt df ->
  Permutation l df -> StronglySorted year_le l -> l = df.
Proof.
  intros S P Sl. apply strictly_sorted_unique; [|exact S|exact P].
  apply sorted_nodup_strict; [exact Sl|].
  eapply Permutation_NoDup; [|apply strictly_sorted_nodup; exact S].
  apply Permutation_map. symmetry. exact P.
Qed.

(** C7, as the code has it: given records in ascending order of year,
    the years being distinct, sorting by year leaves the table as it is
    whatever the sort, and [paired_ttest_czech] returns the one-sample test
    against zero of the consecutive differences [value[i+1] - value[i]] of
    life_expectancy.  It does not fail on short inputs: with fewer than two
    records there is no difference and the statistic returned is NaN. *)
Theorem paired_ttest_czech_on_sorted
  (t_pvalue : float -> Z -> float) (df_cz : frame) :
  StronglySorted year_lt df_cz ->
  (forall l : frame, Permutation l df_cz -> StronglySorted year_le l -> l = df_cz) /\
  paired_ttest_czech t_pvalue df_cz =
    Return (Scipy.ttest_1samp t_pvalue (diffs (map life_expectancy df_cz)) zero) /\
  (forall i : nat,
      diffs (map life_expectancy df_cz) !! i =
      match map life_expectancy df_cz !! S i, map life_expectancy df_cz !! i with
      | Some b, Some a => Some (F64.sub b a)
      | _, _ => None
      end) /\
  match df_cz with
  | [] | [_] => exists p, paired_ttest_czech t_pvalue df_cz = Return (F64.nan, p)
  | _ => True
  end.
Proof.
  intros S.
  split; [intros l P Sl; exact (strictly_sorted_only_order df_cz l S P Sl)|].
  unfold paired_ttest_czech.
  rewrite (strictly_sorted_only_order df_cz (sort_values df_cz) S
             (sort_values_perm df_cz) (sort_values_sorted df_cz)).
  split; [reflexivity|]. split; [intros i; apply diffs_lookup|].
  destruct df_cz as [|x [|y l]]; [| |exact I]; eexists; reflexivity.
Qed.

Lemma czechia_sorted_is_sorted : StronglySorted year_lt czechia_sorted.
Proof.
  unfold czechia_sorted.
  repeat (constructor; [|repeat (constructor; [unfold year_lt; simpl; lia|]); constructor]).
  constructor.
Qed.

Lemma paired_ttest_czech_on_sorted_witness :
  paired_ttest_czech no_pvalue czechia_sorted =
  Return (Scipy.ttest_1samp no_pvalue
            (diffs (map life_expectancy czechia_sorted)) zero).
Proof.
  exact (proj1 (proj2 (paired_ttest_czech_on_sorted no_pvalue czechia_sorted
                         czechia_sorted_is_sorted))).
Defined.

(** An empty table has fewer than three records and nothing is raised. *)
Lemma paired_ttest_czech_short_input_returns :
  ~ (forall (t_pvalue : float -> Z -> float) (df_cz : frame),
        (length df_cz < 3)%nat ->
        paired_ttest_czech t_pvalue df_cz = Raise InsufficientData).
Proof.
  intros H. specialize (H no_pvalue [] ltac:(simpl; lia)). discriminate H.
Qed.

(** C10, as the code has it: for two tables with the same rows in any
    order, and pairwise distinct years, [paired_ttest_czech] returns the
    same result. *)
Theorem paired_ttest_czech_permutation
  (t_pvalue : float -> Z -> float) (a b : frame) :
  Permutation a b -> List.NoDup (map m_year a) ->
  paired_ttest_czech t_pvalue a = paired_ttest_czech t_pvalue b.
Proof.
  intros P N. unfold paired_ttest_czech.
  rewrite (sort_values_permutation_invariant a b P N). reflexivity.
Qed.

Lemma paired_ttest_czech_permutation_witness :
  paired_ttest_czech no_pvalue czechia_sorted =
  paired_ttest_czech no_pvalue czechia_shuffled.
Proof.
  apply paired_ttest_czech_permutation.
  - exact (Permutation_app_comm
             [row "Czech Republic" 2000 75 15000; row "Czech Republic" 2001 77 15750]
             [row "Czech Republic" 2002 76 16500]).
  - simpl. repeat (constructor; [simpl; intuition lia|]). constructor.
Defined.

(** With two records of the same year the order of the rows shows in the
    result: exchanging them changes the sign of the statistic. *)
Lemma paired_ttest_czech_tied_years_differ :
  ~ (forall (t_pvalue : float -> Z -> float) (a b : frame),
        Permutation a b ->
        paired_ttest_czech t_pvalue a = paired_ttest_czech t_pvalue b).
Proof.
  intros H.
  specialize (H no_pvalue tied_years tied_years_swapped (perm_swap _ _ _)).
  vm_compute in H. discriminate H.
Qed.

End PairedTtest.

(** ** Which tables a call writes *)

Section Frames.
Import DataTransformer Analyzer Samples.
Import Store.

Variable pearson_stat : list float -> list float -> float * float.
Variable t_pvalue : float -> Z -> float.
Variable log10 : float -> float.
Variable Model : Type.
Variable ols_fit : list float -> list float -> outcome Model.

Lemma alloc_preserves (t : table) : preserves (alloc t).
Proof. intros h r Hr. simpl. apply lookup_app_l. exact Hr. Qed.

Ltac frame_cases :=
  intros h r Hr; simpl;
  repeat match goal with
    | |- context [match ?x with _ => _ end] => destruct x; simpl
    end;
  first [reflexivity | apply lookup_app_l; exact Hr].

Lemma melt_life_expectancy_preserves (life_df : ref) :
  preserves (Store.melt_life_expectancy life_df).
Proof. unfold Store.melt_life_expectancy. frame_cases. Qed.

Lemma melt_gdp_per_capita_preserves (gdp_df : ref) :
  preserves (Store.melt_gdp_per_capita gdp_df).
Proof. unfold Store.melt_gdp_per_capita. frame_cases. Qed.

Lemma merge_datasets_preserves (life_long gdp_long : ref) :
  preserves (Store.merge_datasets life_long gdp_long).
Proof. unfold Store.merge_datasets. frame_cases. Qed.

Lemma filter_2020_data_preserves (df : ref) :
  preserves (Store.filter_2020_data df).
Proof. unfold Store.filter_2020_data. frame_cases. Qed.

Lemma compute_pearson_preserves (df : ref) :
  preserves (Store.compute_pearson pearson_stat df).
Proof. unfold Store.compute_pearson. frame_cases. Qed.

Lemma trend_czech_preserves (df : ref) :
  preserves (Store.trend_czech Model ols_fit df).
Proof. unfold Store.trend_czech. frame_cases. Qed.

Lemma paired_ttest_czech_preserves (df_cz : ref) :
  preserves (Store.paired_ttest_czech t_pvalue df_cz).
Proof. unfold Store.paired_ttest_czech. frame_cases. Qed.


(** The stored operations compute what the functions on rows compute. *)
Lemma filter_2020_data_result (df : ref) (h : heap) (o : merged_obj) :
  h !! df = Some (Merged o) ->
  exists o' : merged_obj,
    Store.filter_2020_data df h = (h ++ [Merged o'], Return (length h)) /\
    rows o' = Analyzer.filter_2020_data (rows o).
Proof.
  intros Hdf. unfold Store.filter_2020_data. rewrite Hdf.
  eexists. split; reflexivity.
Qed.

Lemma merge_datasets_result (life_long gdp_long : ref) (h : heap)
  (a b : list LongRecord) :
  h !! life_long = Some (Long a) -> h !! gdp_long = Some (Long b) ->
  Store.merge_datasets life_long gdp_long h =
    (h ++ [Merged (mkObj (DataTransformer.merge_datasets a b) None)],
     Return (length h)).
Proof.
  intros Ha Hb. unfold Store.merge_datasets. rewrite Ha, Hb. reflexivity.
Qed.

Lemma paired_ttest_czech_result (df_cz : ref) (h : heap) (o : merged_obj) :
  h !! df_cz = Some (Merged o) ->
  Store.paired_ttest_czech t_pvalue df_cz h =
    (h, Analyzer.paired_ttest_czech t_pvalue (rows o)).
Proof.
  intros Hdf. unfold Store.paired_ttest_czech. rewrite Hdf. reflexivity.
Qed.

End Frames.

Section FrameEffects.
Import DataTransformer Analyzer Samples Store StoreSamples.




End FrameEffects.

(** * Further properties of the transformer *)

Section MeltEdges.
Import DataTransformer CellSpec MeltSpec MoreSamples.












Lemma dropna_no_missing (rows : list LongRecord) :
  List.Forall (fun r => F64.isna (value r) = false) (dropna rows).
Proof.
  apply List.Forall_forall. intros r Hr.
  apply filter_In in Hr as [_ Hr]. apply negb_true_iff. exact Hr.
Qed.

(** X4: no record that a melt returns has a missing value. *)
Theorem melt_output_has_no_missing_value
  (life_df : WideTable float) (gdp_df : WideTable gdp_cell)
  (life_long gdp_long : list LongRecord) :
  melt_life_expectancy life_df = Return life_long ->
  melt_gdp_per_capita gdp_df = Return gdp_long ->
  List.Forall (fun r => F64.isna (value r) = false) life_long /\
  List.Forall (fun r => F64.isna (value r) = false) gdp_long.
Proof.
  unfold melt_life_expectancy, melt_gdp_per_capita. intros Hl Hg. split.
  - destruct (astype_int (melt life_df)); simpl in Hl; [|discriminate].
    inversion Hl. apply dropna_no_missing.
  - destruct (astype_int (melt gdp_df)); simpl in Hg; [|discriminate].
    destruct (apply_cells clean_gdp_cell a); simpl in Hg; [|discriminate].
    inversion Hg. apply dropna_no_missing.
Qed.

Lemma melt_output_has_no_missing_value_witness :
  List.Forall (fun r => F64.isna (value r) = false)
    [mkLong "Czechia" 2000 (F64.of_Z 75); mkLong "Czechia" 2002 (F64.of_Z 76)] /\
  List.Forall (fun r => F64.isna (value r) = false)
    [mkLong "Czechia" 2000 (F64.of_Z 15000)].
Proof.
  apply (melt_output_has_no_missing_value life_table_czechia gdp_table_czechia);
    vm_compute; reflexivity.
Defined.

End MeltEdges.

Section MergeRows.
Import DataTransformer JoinSpec MoreSamples.

(** X5: the merged table holds exactly the pairs of a life record and a
    GDP record with the same country and year, with the life value and the
    GDP value of the pair. *)
Theorem merge_datasets_rows (life_long gdp_long : list LongRecord) (m : MergedRecord) :
  In m (merge_datasets life_long gdp_long) <->
  exists x y : LongRecord,
    In x life_long /\ In y gdp_long /\
    country x = country y /\ year x = year y /\
    m = mkMerged (country x) (year x) (value x) (value y).
Proof.
  unfold merge_datasets. rewrite in_map_iff. split.
  - intros ([x y] & E & Hin). apply in_pd_merge in Hin as (Hx & Hy & Hk).
    exists x, y. unfold long_key in Hk. inversion Hk.
    repeat split; try assumption. symmetry. exact E.
  - intros (x & y & Hx & Hy & Hc & Hyr & E).
    exists (x, y). split; [symmetry; exact E|].
    apply in_pd_merge. repeat split; try assumption.
    unfold long_key. congruence.
Qed.

Lemma matches_at_most_one (k : string * Z) (b : list LongRecord) :
  List.NoDup (map long_key b) ->
  (length (List.filter (fun y => bool_decide (k = long_key y)) b) <= 1)%nat.
Proof.
  induction b as [|y b IH]; intros N; simpl; [lia|].
  inversion N as [|? ? Hy Nb]; subst.
  destruct (bool_decide (k = long_key y)) eqn:E; [|apply IH; exact Nb].
  apply bool_decide_eq_true in E. subst k. simpl.
  assert (Hnone : List.filter (fun z => bool_decide (long_key y = long_key z)) b = []).
  { destruct (List.filter _ b) as [|z l] eqn:F; [reflexivity|].
    assert (Hz : In z (z :: l)) by (left; reflexivity).
    rewrite <- F in Hz. apply filter_In in Hz as [Hz Hk].
    apply bool_decide_eq_true in Hk.
    exfalso. apply Hy. rewrite Hk. apply in_map. exact Hz. }
  rewrite Hnone. simpl. lia.
Qed.

(** X6: when no (country, year) key occurs twice in the GDP table, the
    join does not inflate: the merged table has at most as many rows as the
    life table. *)
Theorem merge_datasets_no_inflation (life_long gdp_long : list LongRecord) :
  List.NoDup (map long_key gdp_long) ->
  (length (merge_datasets life_long gdp_long) <= length life_long)%nat.
Proof.
  intros N. unfold merge_datasets, pd_merge. rewrite length_map.
  induction life_long as [|x a IH]; simpl; [lia|].
  rewrite length_app, length_map.
  pose proof (matches_at_most_one (long_key x) gdp_long N). lia.
Qed.

Lemma merge_datasets_no_inflation_witness :
  (length (merge_datasets life_long_sample gdp_long_sample)
   <= length life_long_sample)%nat.
Proof.
  apply merge_datasets_no_inflation.
  vm_compute. repeat (constructor; [simpl; intuition discriminate|]). constructor.
Defined.

Lemma merge_cons (x : LongRecord) (a b : list LongRecord) :
  map merged_key (merge_datasets (x :: a) b) =
  map (fun _ => long_key x)
      (List.filter (fun y => bool_decide (long_key x = long_key y)) b)
  ++ map merged_key (merge_datasets a b).
Proof.
  unfold merge_datasets, pd_merge. simpl.
  rewrite !map_app, !map_map. reflexivity.
Qed.

(** X7: when no key occurs twice in either input, no key occurs twice in
    the merged table. *)
Theorem merge_datasets_unique_keys (life_long gdp_long : list LongRecord) :
  List.NoDup (map long_key life_long) -> List.NoDup (map long_key gdp_long) ->
  List.NoDup (map merged_key (merge_datasets life_long gdp_long)).
Proof.
  intros Na Nb. induction life_long as [|x a IH]; [constructor|].
  simpl in Na. inversion Na as [|? ? Hx Na']; subst.
  rewrite merge_cons.
  pose proof (matches_at_most_one (long_key x) gdp_long Nb) as Hone.
  destruct (List.filter _ gdp_long) as [|y [|z l]]; simpl in *; try lia.
  - apply IH. exact Na'.
  - constructor; [|apply IH; exact Na'].
    intros Hin. apply in_keys_merge in Hin as [Hin _]. exact (Hx Hin).
Qed.

Lemma merge_datasets_unique_keys_witness :
  List.NoDup (map merged_key (merge_datasets life_long_sample gdp_long_sample)).
Proof.
  apply merge_datasets_unique_keys;
    vm_compute; repeat (constructor; [simpl; intuition discriminate|]); constructor.
Defined.

End MergeRows.

Section SuffixLaw.
Import DataTransformer CellSpec.

Lemma chars_append (v w : string) :
  Py.chars (String.append v w) = Py.chars v ++ Py.chars w.
Proof.
  unfold Py.chars. induction v as [|c v IH]; simpl; [reflexivity|].
  rewrite IH. reflexivity.
Qed.

Lemma rstrip_keeps_last (p : ascii -> bool) (l : list ascii) (c : ascii) :
  p c = false -> Py.rstrip_by p (l ++ [c]) = l ++ [c].
Proof.
  intros Hc. unfold Py.rstrip_by. rewrite rev_app_distr. simpl.
  rewrite Hc. simpl. rewrite rev_involutive. reflexivity.
Qed.

Lemma strip_keeps_last (p : ascii -> bool) (l : list ascii) (c : ascii) :
  p c = false -> Py.strip_by p (l ++ [c]) = Py.lstrip_by p l ++ [c].
Proof.
  intros Hc. unfold Py.strip_by. rewrite lstrip_app.
  destruct (forallb p l) eqn:Hl.
  - rewrite (lstrip_all p l Hl). simpl. rewrite Hc.
    apply (rstrip_keeps_last p [] c Hc).
  - apply rstrip_keeps_last. exact Hc.
Qed.

Lemma ends_with_k_last (l : list ascii) (c : ascii) :
  Py.ends_with_k (l ++ [c]) = ((Py.code c =? 107) || (Py.code c =? 75))%N.
Proof. unfold Py.ends_with_k. rewrite rev_app_distr. reflexivity. Qed.

Lemma strip_remove_commas_lstrip (l : list ascii) :
  Py.strip (Py.remove_commas (Py.lstrip_by Py.isspace l)) =
  Py.strip (Py.remove_commas l).
Proof.
  unfold Py.strip, Py.strip_by, Py.remove_commas.
  rewrite lstrip_filter_lstrip; [reflexivity|].
  intros c Hc. unfold Py.is_comma.
  destruct (N.eqb_spec (Py.code c) 44) as [E|]; [|reflexivity].
  unfold Py.isspace in Hc. rewrite E in Hc. discriminate.
Qed.

Lemma clean_with_suffix (v : string) (c : ascii) (x : float) :
  ((Py.code c =? 107) || (Py.code c =? 75))%N = true ->
  Py.ends_with_k (Py.strip (Py.chars v)) = false ->
  clean_gdp_cell (Some v) = Return x ->
  clean_gdp_cell (Some (String.append v (String c EmptyString))) =
  Return (F64.mul x thousand).
Proof.
  intros Hk Hv Hx.
  assert (Hsp : Py.isspace c = false).
  { unfold Py.isspace.
    apply orb_true_iff in Hk as [E|E]; apply N.eqb_eq in E; rewrite E; reflexivity. }
  unfold clean_gdp_cell in *. rewrite Hv in Hx.
  rewrite chars_append. change (Py.chars (String c EmptyString)) with [c].
  assert (Hs : Py.strip (Py.chars v ++ [c]) = Py.lstrip_by Py.isspace (Py.chars v) ++ [c])
    by (apply strip_keeps_last; exact Hsp).
  rewrite !Hs, ends_with_k_last, Hk.
  unfold Py.drop_last. rewrite removelast_last.
  rewrite strip_remove_commas_lstrip.
  rewrite strip_remove_commas_strip in Hx.
  destruct (py_float (Py.strip (Py.remove_commas (Py.chars v)))) as [y|e] eqn:E.
  - simpl in *. inversion Hx. reflexivity.
  - apply py_float_raises_only_ValueError in E as ->.
    simpl in *. inversion Hx. reflexivity.
Qed.

(** X8: appending the suffix [k] or [K] to a cell that does not already
    end with one multiplies its cleaned value by 1000; a cell that cleans
    to NaN still cleans to NaN. *)
Theorem clean_gdp_cell_suffix_scales (v : string) (x : float) :
  Py.ends_with_k (Py.strip (Py.chars v)) = false ->
  clean_gdp_cell (Some v) = Return x ->
  clean_gdp_cell (Some (String.append v "k")) = Return (F64.mul x thousand) /\
  clean_gdp_cell (Some (String.append v "K")) = Return (F64.mul x thousand).
Proof.
  intros Hv Hx. split; apply clean_with_suffix; auto.
Qed.

Lemma clean_gdp_cell_suffix_scales_witness :
  clean_gdp_cell (Some (String.append " 1,234.5 " "k")) =
    Return (F64.mul (F64.of_decimal false 12345 (-1)) thousand) /\
  clean_gdp_cell (Some (String.append " 1,234.5 " "K")) =
    Return (F64.mul (F64.of_decimal false 12345 (-1)) thousand).
Proof.
  apply clean_gdp_cell_suffix_scales; vm_compute; reflexivity.
Defined.

End SuffixLaw.

(** * Further properties of the analyzer *)

Section FilterMore.
Import DataTransformer Analyzer FilterSpec MoreSamples.

Lemma above_ten_is_positive (x : float) :
  F64.ltb ten x = true -> F64.ltb zero x = true.
Proof.
  destruct x as [s|s| |s m e]; try destruct s; try discriminate; reflexivity.
Qed.

Lemma ltb_not_nan (x y : float) :
  F64.ltb x y = true -> F64.isna x = false /\ F64.isna y = false.
Proof.
  destruct x, y; try discriminate; split; reflexivity.
Qed.

(** X9: the test [life_expectancy > 0] never removes a record that the
    test [life_expectancy > 10] keeps: the filter is the one with the four
    other predicates. *)
Theorem filter_2020_data_positive_life_redundant (df : frame) :
  filter_2020_data df =
  List.filter (fun r => year_matches r && gdp_positive r
                        && life_above_bound r && gdp_below_bound r) df.
Proof.
  rewrite filter_2020_data_as_filter. apply filter_ext. intros r.
  unfold keep, life_positive, life_above_bound.
  destruct (F64.ltb ten (life_expectancy r)) eqn:E.
  - rewrite (above_ten_is_positive _ E). rewrite !andb_true_r. reflexivity.
  - rewrite !andb_false_r. reflexivity.
Qed.

(** X10: no record of the filtered slice has a missing life expectancy
    or a missing GDP per capita. *)
Theorem filter_2020_data_no_missing (df : frame) :
  List.Forall (fun r => F64.isna (life_expectancy r) = false /\
                        F64.isna (gdp_per_capita r) = false)
              (filter_2020_data df).
Proof.
  apply List.Forall_forall. intros r Hr.
  rewrite filter_2020_data_as_filter in Hr.
  apply filter_In in Hr as [_ Hr]. apply keep_true in Hr as (_ & Hg & Hl & _).
  apply ltb_not_nan in Hg as [_ Hg]. apply ltb_not_nan in Hl as [_ Hl].
  split; assumption.
Qed.

Lemma filter_keys_nodup (p : MergedRecord -> bool) (df : frame) :
  List.NoDup (map merged_key df) -> List.NoDup (map merged_key (List.filter p df)).
Proof.
  induction df as [|r df IH]; intros N; [constructor|].
  simpl in N. inversion N as [|? ? Hr N']; subst. simpl.
  destruct (p r); simpl; [|apply IH; exact N'].
  constructor; [|apply IH; exact N'].
  intros Hin. apply Hr. apply in_map_iff in Hin as (x & E & Hx).
  apply filter_In in Hx as [Hx _]. rewrite <- E. apply in_map. exact Hx.
Qed.

(** X11: when no (country, year) key occurs twice in the merged table,
    the slice of 2020 holds every country at most once. *)
Theorem filter_2020_data_one_row_per_country (df : frame) :
  List.NoDup (map merged_key df) ->
  List.NoDup (map m_country (filter_2020_data df)).
Proof.
  intros N. rewrite filter_2020_data_as_filter.
  pose proof (filter_keys_nodup keep df N) as Nk.
  assert (Hy : List.Forall (fun r => m_year r = 2020) (List.filter keep df)).
  { apply List.Forall_forall. intros r Hr. apply filter_In in Hr as [_ Hr].
    apply keep_true in Hr. tauto. }
  induction (List.filter keep df) as [|r l IH]; [constructor|].
  simpl in *. inversion Nk as [|? ? Hr Nl]; subst.
  inversion Hy as [|? ? Yr Yl]; subst.
  constructor; [|apply IH; assumption].
  intros Hin. apply Hr. apply in_map_iff in Hin as (x & E & Hx).
  apply in_map_iff. exists x. split; [|exact Hx].
  rewrite List.Forall_forall in Yl. unfold merged_key.
  rewrite E, (Yl x Hx), Yr. reflexivity.
Qed.

Lemma filter_2020_data_one_row_per_country_witness :
  List.NoDup (map m_country (filter_2020_data merged_sample)).
Proof.
  apply filter_2020_data_one_row_per_country.
  vm_compute. repeat (constructor; [simpl; intuition discriminate|]). constructor.
Defined.

End FilterMore.

Section TrendAndDiffs.
Import DataTransformer Analyzer Samples MoreSamples.

(** X12: [n] values give [n - 1] differences, and none when there is at
    most one value. *)
Theorem diffs_length (v : list float) :
  length (diffs v) = (length v - 1)%nat.
Proof.
  induction v as [|a [|b v] IH]; [reflexivity | reflexivity |].
  rewrite diffs_cons. simpl in *. rewrite IH. lia.
Qed.

(** X13: [trend_czech] fits the model on the table obtained from the
    input by keeping, in their order and as often as they occur, exactly
    the records of "Czech Republic" whose year lies between 2000 and 2020,
    both bounds included; it returns that table with the model, or raises
    what the fit raises. *)
Theorem trend_czech_selection
  (Model : Type) (ols_fit : list float -> list float -> outcome Model) (df : frame) :
  (forall r : MergedRecord,
      in_trend_window r = true <->
      m_country r = "Czech Republic"%string /\ 2000 <= m_year r <= 2020) /\
  trend_czech Model ols_fit df =
    match ols_fit (map life_expectancy (List.filter in_trend_window df))
                  (map (fun r => F64.of_Z (m_year r))
                       (List.filter in_trend_window df)) with
    | Return model => Return (List.filter in_trend_window df, model)
    | Raise e => Raise e
    end.
Proof.
  split.
  - intros r. unfold in_trend_window.
    rewrite !andb_true_iff, bool_decide_eq_true, !Z.leb_le. tauto.
  - unfold trend_czech, select, in_trend_window.
    destruct (ols_fit _ _); reflexivity.
Qed.

End TrendAndDiffs.

Section RegressionTwice.
Import DataTransformer Analyzer Samples Store StoreSamples.

Variable log10 : float -> float.
Variable Model : Type.
Variable ols_fit : list float -> list float -> outcome Model.

(** X14: [regression_log_gdp] can be repeated: a second call on the same
    slice leaves the heap as the first call left it and returns the same
    fit, and the four columns of the slice are those it had before. *)
Theorem regression_log_gdp_repeatable (h : heap) (df : ref) (o : merged_obj) :
  h !! df = Some (Merged o) ->
  let first := Store.regression_log_gdp log10 Model ols_fit df h in
  let second := Store.regression_log_gdp log10 Model ols_fit df (fst first) in
  fst second = fst first /\ snd second = snd first /\
  exists o' : merged_obj,
    fst first !! df = Some (Merged o') /\ rows o' = rows o.
Proof.
  intros Hdf. cbv zeta.
  pose proof (lookup_lt_Some _ _ _ Hdf) as Hlt.
  unfold Store.regression_log_gdp. rewrite Hdf. cbn [fst snd].
  rewrite (list_lookup_insert_eq h df _ Hlt). cbn [fst snd rows].
  split; [apply list_insert_insert_eq|].
  split; [reflexivity|].
  eexists. split; reflexivity.
Qed.

End RegressionTwice.

Lemma regression_log_gdp_repeatable_witness :
  fst (Store.regression_log_gdp StoreSamples.same unit StoreSamples.fit_nothing 0%nat
         (fst (Store.regression_log_gdp StoreSamples.same unit
                 StoreSamples.fit_nothing 0%nat StoreSamples.one_slice))) =
  fst (Store.regression_log_gdp StoreSamples.same unit StoreSamples.fit_nothing 0%nat
         StoreSamples.one_slice).
Proof.
  exact (proj1 (regression_log_gdp_repeatable StoreSamples.same unit
                  StoreSamples.fit_nothing StoreSamples.one_slice 0%nat
                  (Store.mkObj Samples.constant_gdp_slice None) eq_refl)).
Defined.

(** * Properties of the scatter series *)

Section ScatterSeries.
Import DataTransformer Analyzer Visualizer MoreSamples.

Lemma perm_filter_split {A : Type} (p : A -> bool) (l : list A) :
  Permutation l (List.filter p l ++ List.filter (fun x => negb (p x)) l).
Proof.
  induction l as [|x l IH]; simpl; [constructor|].
  destruct (p x); simpl.
  - constructor. exact IH.
  - apply Permutation_cons_app. exact IH.
Qed.

Lemma filter_all {A : Type} (p : A -> bool) (l : list A) :
  (forall x, p x = true) -> List.filter p l = l.
Proof.
  intros H. induction l as [|x l IH]; simpl; [reflexivity|].
  rewrite H, IH. reflexivity.
Qed.

Lemma series_points (df : frame) (hl : highlights) :
  flat_map points (scatter_series df hl) =
  others df hl ++ flat_map (fun kc => subset df (fst kc)) hl.
Proof.
  unfold scatter_series. simpl. f_equal.
  induction hl as [|kc hl IH]; [reflexivity|]. simpl.
  rewrite flat_map_app, IH.
  destruct (subset df (fst kc)); simpl; [reflexivity|].
  rewrite app_nil_r. reflexivity.
Qed.

Lemma is_key_false (hl : highlights) (c : string) :
  ~ In c (map fst hl) -> is_key hl c = false.
Proof.
  intros H. unfold is_key. apply not_true_is_false. intros E.
  apply existsb_exists in E as (kc & Hkc & Ek).
  apply bool_decide_eq_true in Ek. apply H. rewrite <- Ek.
  apply in_map. exact Hkc.
Qed.

Lemma partition_by_country (df : frame) (hl : highlights) :
  List.NoDup (map fst hl) ->
  Permutation (others df hl ++ flat_map (fun kc => subset df (fst kc)) hl) df.
Proof.
  induction hl as [|[k col] hl IH]; intros N.
  - unfold others, select. simpl. rewrite app_nil_r.
    rewrite filter_all by reflexivity. reflexivity.
  - simpl in N. inversion N as [|? ? Hk N']; subst.
    rewrite <- (IH N') at 2. simpl. rewrite app_assoc.
    apply Permutation_app_tail.
    rewrite (perm_filter_split (fun r => negb (bool_decide (m_country r = k)))
               (others df hl)).
    apply Permutation_app.
    + match goal with |- Permutation ?a ?b => replace b with a; [reflexivity|] end.
      unfold others, select. rewrite filter_filter.
      apply filter_ext. intros r. simpl.
      destruct (is_key hl (m_country r)), (bool_decide_reflect (k = m_country r)),
        (bool_decide_reflect (m_country r = k)); simpl; congruence.
    + match goal with |- Permutation ?a ?b => replace b with a; [reflexivity|] end.
      unfold others, subset, select. rewrite filter_filter.
      apply filter_ext. intros r. rewrite negb_involutive.
      destruct (bool_decide_reflect (m_country r = k)) as [E|E];
        [|symmetry; apply andb_false_r].
      rewrite E, (is_key_false hl k Hk). reflexivity.
Qed.

(** X15: whatever countries are highlighted, the scatter calls of a plot
    receive every record of the table exactly once between them; without
    highlights there is one call, with the whole table. *)
Theorem scatter_series_partition (df : frame) (hl : highlights) :
  List.NoDup (map fst hl) ->
  Permutation (flat_map points (scatter_series df hl)) df /\
  scatter_series df [] = [mkSeries "Countries (2020)" "lightgray" df].
Proof.
  intros N. split.
  - rewrite series_points. apply partition_by_country. exact N.
  - unfold scatter_series, others, select. simpl.
    rewrite filter_all by reflexivity. reflexivity.
Qed.

Lemma scatter_series_partition_witness :
  Permutation
    (flat_map points
       (scatter_series merged_sample
          [("Norway"%string, "red"%string); ("Chad"%string, "blue"%string)]))
    merged_sample.
Proof.
  apply (scatter_series_partition merged_sample
           [("Norway"%string, "red"%string); ("Chad"%string, "blue"%string)]).
  simpl. repeat (constructor; [simpl; intuition discriminate|]). constructor.
Defined.

End ScatterSeries.

(** * Properties of the analysis steps of main *)

Section MainSteps.
Import DataTransformer Analyzer Store Main.

Variable pearson_stat : list float -> list float -> float * float.
Variable t_pvalue : float -> Z -> float.
Variable log10 : float -> float.
Variable Model : Type.
Variable ols_fit : list float -> list float -> outcome Model.
Variable out : outside Model.

Lemma extends_refl (h : heap) : extends h h.
Proof. intros r _. reflexivity. Qed.

Lemma extends_length (h h' : heap) : extends h h' -> (length h <= length h')%nat.
Proof.
  intros E. destruct (Nat.le_gt_cases (length h) (length h')) as [|Hlt]; [assumption|].
  exfalso. specialize (E (length h') Hlt).
  assert (Hn : h' !! length h' = None) by (apply lookup_ge_None_2; lia).
  assert (Hs : h !! length h' = None) by (etransitivity; [symmetry; exact E | exact Hn]).
  apply lookup_ge_None_1 in Hs. lia.
Qed.

Lemma extends_trans (h1 h2 h3 : heap) :
  extends h1 h2 -> extends h2 h3 -> extends h1 h3.
Proof.
  intros E12 E23 r Hr. rewrite E23, E12; [reflexivity | exact Hr |].
  pose proof (extends_length h1 h2 E12). lia.
Qed.

Lemma preserves_extends {A : Type} (call : st A) (h : heap) :
  preserves call -> extends h (fst (call h)).
Proof. intros P r Hr. apply P. exact Hr. Qed.

Lemma then_st_extends {A B : Type} (m : st A) (k : A -> st B) (h : heap) :
  extends h (fst (m h)) ->
  (forall a h', snd (m h) = Return a -> h' = fst (m h) -> extends h (fst (k a h'))) ->
  extends h (fst (then_st m k h)).
Proof.
  intros Em Ek. unfold then_st.
  destruct (m h) as [h' [a|e]] eqn:E; simpl in *; [|exact Em].
  apply Ek; reflexivity.
Qed.

Lemma regression_extends_below (df : ref) (h0 h : heap) :
  extends h0 h -> (length h0 <= df)%nat ->
  extends h0 (fst (Store.regression_log_gdp log10 Model ols_fit df h)).
Proof.
  intros E Hdf r Hr. unfold Store.regression_log_gdp.
  destruct (h !! df) as [[| | |o]|]; simpl; try (apply E; exact Hr).
  etransitivity; [apply list_lookup_insert_ne; lia | apply E; exact Hr].
Qed.

Lemma step_extends {A : Type} (call : st A) (h0 h : heap) :
  preserves call -> extends h0 h -> extends h0 (fst (call h)).
Proof.
  intros P E. apply (extends_trans h0 h); [exact E|].
  apply preserves_extends. exact P.
Qed.

Lemma then_extends {A B : Type} (m : st A) (k : A -> st B) (h0 h : heap) :
  extends h0 (fst (m h)) ->
  (forall a, snd (m h) = Return a -> extends h0 (fst (m h)) ->
             extends h0 (fst (k a (fst (m h))))) ->
  extends h0 (fst (then_st m k h)).
Proof.
  intros Em Ek. unfold then_st.
  destruct (m h) as [h' [a|e]] eqn:E; simpl in *; [|exact Em].
  apply Ek; [reflexivity | exact Em].
Qed.

Lemma ret_extends {A : Type} (a : A) (h0 h : heap) :
  extends h0 h -> extends h0 (fst (ret_st a h)).
Proof. intros E. exact E. Qed.

Lemma outside_call_preserves {A : Type} (r : outcome A) : preserves (outside_call r).
Proof. intros h x Hx. reflexivity. Qed.

Lemma reading_preserves {A : Type} (f : merged_obj -> outcome A) (df : ref) :
  preserves (reading f df).
Proof.
  intros h x Hx. unfold reading.
  destruct (h !! df) as [[| | |o]|]; reflexivity.
Qed.

Lemma filter_2020_data_fresh (df x : ref) (h : heap) :
  snd (Store.filter_2020_data df h) = Return x -> x = length h.
Proof.
  unfold Store.filter_2020_data.
  destruct (h !! df) as [[| | |o]|]; simpl; intros E; inversion E; reflexivity.
Qed.

(** X16: the analysis steps of [main] leave every table that exists
    before them unchanged, the two raw tables included, whether they run to
    the end or stop at an exception: the slice that [regression_log_gdp]
    writes to is one that [main] has created itself. *)
Theorem main_preserves_tables (life_raw gdp_raw : ref) :
  preserves (main pearson_stat t_pvalue log10 Model ols_fit out life_raw gdp_raw).
Proof.
  intros h. change (extends h (fst (main pearson_stat t_pvalue log10 Model ols_fit out
                                      life_raw gdp_raw h))).
  unfold main. pose proof (extends_refl h) as E0.
  apply then_extends;
    [apply step_extends; [apply melt_life_expectancy_preserves | exact E0]|].
  intros life_long _ E1.
  apply then_extends;
    [apply step_extends; [apply melt_gdp_per_capita_preserves | exact E1]|].
  intros gdp_long _ E2.
  apply then_extends;
    [apply step_extends; [apply merge_datasets_preserves | exact E2]|].
  intros merged_df _ E3.
  apply then_extends;
    [apply step_extends; [apply filter_2020_data_preserves | exact E3]|].
  intros df_2020 Hdf E4.
  apply filter_2020_data_fresh in Hdf.
  pose proof (extends_length _ _ E3) as L3.
  apply then_extends;
    [apply step_extends; [apply compute_pearson_preserves | exact E4]|].
  intros pearson _ E5.
  assert (E6 : extends h (fst (Store.regression_log_gdp log10 Model ols_fit df_2020
                                 (fst (Store.compute_pearson pearson_stat df_2020
                                   (fst (Store.filter_2020_data merged_df
                                     (fst (Store.merge_datasets life_long gdp_long
                                       (fst (Store.melt_gdp_per_capita gdp_raw
                                         (fst (Store.melt_life_expectancy life_raw h)))))))))))))
    by (apply regression_extends_below; [exact E5 | lia]).
  apply then_extends; [exact E6|].
  intros model_log _ _.
  apply then_extends;
    [apply step_extends; [apply outside_call_preserves | exact E6]|].
  intros ? _ E6a.
  apply then_extends;
    [apply step_extends; [apply reading_preserves | exact E6a]|].
  intros ? _ E6b.
  apply then_extends;
    [apply step_extends; [apply reading_preserves | exact E6b]|].
  intros ? _ E6c.
  apply then_extends;
    [apply step_extends; [apply trend_czech_preserves | exact E6c]|].
  intros trend _ E7.
  apply then_extends;
    [apply step_extends; [apply outside_call_preserves | exact E7]|].
  intros ? _ E7a.
  apply then_extends;
    [apply step_extends; [apply reading_preserves | exact E7a]|].
  intros ? _ E7b.
  apply then_extends;
    [apply step_extends; [apply paired_ttest_czech_preserves | exact E7b]|].
  intros ttest _ E8. apply ret_extends. exact E8.
Qed.

Lemma lookup_new (h : heap) (t : table) : (h ++ [t]) !! length h = Some t.
Proof. apply list_lookup_middle. reflexivity. Qed.

Lemma lookup_old (h : heap) (t x : table) (r : ref) :
  h !! r = Some x -> (h ++ [t]) !! r = Some x.
Proof. intros H. apply lookup_app_l_Some. exact H. Qed.

(** The analysis of two long tables, as [main] chains it. *)
Lemma main_result (h : heap) (life_raw gdp_raw : ref)
  (wl : WideTable float) (wg : WideTable gdp_cell) (a b : list LongRecord) :
  h !! life_raw = Some (WideLife wl) -> h !! gdp_raw = Some (WideGdp wg) ->
  DataTransformer.melt_life_expectancy wl = Return a ->
  DataTransformer.melt_gdp_per_capita wg = Return b ->
  let merged := DataTransformer.merge_datasets a b in
  let slice := Analyzer.filter_2020_data merged in
  snd (main pearson_stat t_pvalue log10 Model ols_fit out life_raw gdp_raw h) =
    (pearson <-- Analyzer.compute_pearson pearson_stat slice ;;
     model_log <-- ols_fit (map life_expectancy slice)
                           (map log10 (map gdp_per_capita slice)) ;;
     u1 <-- viz_init out ;;
     u2 <-- plot_scatter_log out
              (mkObj slice (Some (map log10 (map gdp_per_capita slice)))) ;;
     u3 <-- plot_regression_log out
              (mkObj slice (Some (map log10 (map gdp_per_capita slice)))) model_log ;;
     trend <-- Analyzer.trend_czech Model ols_fit merged ;;
     u4 <-- summary out (snd trend) ;;
     u5 <-- plot_czech_trend out (mkObj (fst trend) None) (snd trend) ;;
     ttest <-- Analyzer.paired_ttest_czech t_pvalue (fst trend) ;;
     Return (pearson, model_log, snd trend, ttest)).
Proof.
  intros Hl Hg Ha Hb merged slice.
  set (h1 := h ++ [Long a]). set (h2 := h1 ++ [Long b]).
  set (h3 := h2 ++ [Merged (mkObj merged None)]).
  set (h4 := h3 ++ [Merged (mkObj slice None)]).
  assert (S1 : Store.melt_life_expectancy life_raw h = (h1, Return (length h))).
  { unfold Store.melt_life_expectancy; unfold heap, ref in *. rewrite Hl, Ha. reflexivity. }
  assert (S2 : Store.melt_gdp_per_capita gdp_raw h1 = (h2, Return (length h1))).
  { assert (G1 : h1 !! gdp_raw = Some (WideGdp wg)) by (apply lookup_old; exact Hg).
    unfold Store.melt_gdp_per_capita; unfold heap, ref in *. rewrite G1, Hb. reflexivity. }
  assert (S3 : Store.merge_datasets (length h) (length h1) h2
               = (h3, Return (length h2))).
  { apply merge_datasets_result.
    - apply lookup_old, lookup_new.
    - apply lookup_new. }
  assert (S4 : Store.filter_2020_data (length h2) h3 = (h4, Return (length h3))).
  { assert (G3 : h3 !! length h2 = Some (Merged (mkObj merged None)))
      by apply lookup_new.
    unfold Store.filter_2020_data; unfold heap, ref in *. rewrite G3. reflexivity. }
  assert (L4 : h4 !! length h3 = Some (Merged (mkObj slice None)))
    by apply lookup_new.
  assert (M4 : h4 !! length h2 = Some (Merged (mkObj merged None)))
    by apply lookup_old, lookup_new.
  assert (Hne : length h3 <> length h2)
    by (unfold h3; rewrite length_app; simpl; lia).
  unfold main, then_st; unfold heap, ref in *. rewrite S1, S2, S3, S4.
  unfold Store.compute_pearson; unfold heap, ref in *. rewrite L4. cbn [rows].
  destruct (Analyzer.compute_pearson pearson_stat slice) as [pearson|e];
    [|reflexivity].
  unfold Store.regression_log_gdp; unfold heap, ref in *. rewrite L4. cbn [rows bind].
  destruct (ols_fit (map life_expectancy slice) (map log10 (map gdp_per_capita slice)))
    as [model_log|e]; [|reflexivity].
  cbn [bind].
  set (slice_obj := mkObj slice (Some (map log10 (map gdp_per_capita slice)))).
  set (h5 := <[length h3 := Merged slice_obj]> h4).
  assert (L5 : h5 !! length h3 = Some (Merged slice_obj)).
  { apply list_lookup_insert_eq. unfold h4. rewrite length_app. simpl. lia. }
  assert (M5 : h5 !! length h2 = Some (Merged (mkObj merged None))).
  { etransitivity; [apply list_lookup_insert_ne; exact Hne | exact M4]. }
  unfold outside_call. cbn [fst snd].
  destruct (viz_init out) as [u1|e]; [|reflexivity]. cbn [bind].
  unfold reading; unfold heap, ref in *. rewrite L5.
  destruct (plot_scatter_log out slice_obj) as [u2|e]; [|reflexivity]. cbn [bind].
  rewrite L5.
  destruct (plot_regression_log out slice_obj model_log) as [u3|e]; [|reflexivity].
  cbn [bind].
  unfold Store.trend_czech, Analyzer.trend_czech; unfold heap, ref in *. rewrite M5.
  unfold alloc, select_obj. cbn [rows log_gdp option_map bind fst snd].
  match goal with
  | |- context [ols_fit ?y ?x] => destruct (ols_fit y x) as [trend|e]
  end; [|reflexivity].
  cbn [bind fst snd].
  destruct (summary out trend) as [u4|e]; [|reflexivity]. cbn [bind].
  rewrite (lookup_new h5).
  match goal with
  | |- context [plot_czech_trend out ?o trend] =>
      destruct (plot_czech_trend out o trend) as [u5|e]
  end; [|reflexivity].
  cbn [bind].
  unfold Store.paired_ttest_czech; unfold heap, ref in *.
  rewrite (lookup_new h5). reflexivity.
Qed.

(** X17: on two raw tables that melt without error, the result of
    steps 2 to 6 of [main] is the chain, in the order of the source, of the
    functions on rows and of the calls that act outside the tables:
    correlation and log-GDP fit on the 2020 slice of the merged table, the
    visualizer and the two plots of the slice (which has its [log_gdp]
    column by then), the trend on the merged table, its printed summary and
    its plot, then the paired test; the first step that raises ends the run
    with its exception. *)
Theorem main_chains_row_functions (h : heap) (life_raw gdp_raw : ref)
  (wl : WideTable float) (wg : WideTable gdp_cell) (a b : list LongRecord) :
  h !! life_raw = Some (WideLife wl) -> h !! gdp_raw = Some (WideGdp wg) ->
  DataTransformer.melt_life_expectancy wl = Return a ->
  DataTransformer.melt_gdp_per_capita wg = Return b ->
  let merged := DataTransformer.merge_datasets a b in
  let slice := Analyzer.filter_2020_data merged in
  snd (main pearson_stat t_pvalue log10 Model ols_fit out life_raw gdp_raw h) =
    (pearson <-- Analyzer.compute_pearson pearson_stat slice ;;
     model_log <-- ols_fit (map life_expectancy slice)
                           (map log10 (map gdp_per_capita slice)) ;;
     u1 <-- viz_init out ;;
     u2 <-- plot_scatter_log out
              (mkObj slice (Some (map log10 (map gdp_per_capita slice)))) ;;
     u3 <-- plot_regression_log out
              (mkObj slice (Some (map log10 (map gdp_per_capita slice)))) model_log ;;
     trend <-- Analyzer.trend_czech Model ols_fit merged ;;
     u4 <-- summary out (snd trend) ;;
     u5 <-- plot_czech_trend out (mkObj (fst trend) None) (snd trend) ;;
     ttest <-- Analyzer.paired_ttest_czech t_pvalue (fst trend) ;;
     Return (pearson, model_log, snd trend, ttest)).
Proof. intros Hl Hg Ha Hb. exact (main_result h life_raw gdp_raw wl wg a b Hl Hg Ha Hb). Qed.

(** X18: when fewer than two records of the merged table pass the 2020
    filter, [main] stops at the correlation with [ValueError]: no model is
    fitted and no test is run. *)
Theorem main_stops_at_correlation (h : heap) (life_raw gdp_raw : ref)
  (wl : WideTable float) (wg : WideTable gdp_cell) (a b : list LongRecord) :
  h !! life_raw = Some (WideLife wl) -> h !! gdp_raw = Some (WideGdp wg) ->
  DataTransformer.melt_life_expectancy wl = Return a ->
  DataTransformer.melt_gdp_per_capita wg = Return b ->
  (length (Analyzer.filter_2020_data (DataTransformer.merge_datasets a b)) < 2)%nat ->
  main pearson_stat t_pvalue log10 Model ols_fit out life_raw gdp_raw h =
    (h ++ [Long a] ++ [Long b]
       ++ [Merged (mkObj (DataTransformer.merge_datasets a b) None)]
       ++ [Merged (mkObj (Analyzer.filter_2020_data
                            (DataTransformer.merge_datasets a b)) None)],
     Raise ValueError).
Proof.
  intros Hl Hg Ha Hb Hfew.
  pose proof (main_result h life_raw gdp_raw wl wg a b Hl Hg Ha Hb) as Hres.
  cbv zeta in Hres.
  rewrite compute_pearson_cases in Hres.
  apply Nat.ltb_lt in Hfew. rewrite Hfew in Hres. simpl in Hres.
  rewrite (surjective_pairing (main _ _ _ _ _ _ _ _ _)). rewrite Hres. f_equal.
  set (h1 := h ++ [Long a]). set (h2 := h1 ++ [Long b]).
  set (h3 := h2 ++ [Merged (mkObj (DataTransformer.merge_datasets a b) None)]).
  assert (S1 : Store.melt_life_expectancy life_raw h = (h1, Return (length h))).
  { unfold Store.melt_life_expectancy; unfold heap, ref in *. rewrite Hl, Ha. reflexivity. }
  assert (S2 : Store.melt_gdp_per_capita gdp_raw h1 = (h2, Return (length h1))).
  { assert (G1 : h1 !! gdp_raw = Some (WideGdp wg)) by (apply lookup_old; exact Hg).
    unfold Store.melt_gdp_per_capita; unfold heap, ref in *. rewrite G1, Hb. reflexivity. }
  assert (S3 : Store.merge_datasets (length h) (length h1) h2
               = (h3, Return (length h2))).
  { apply merge_datasets_result; [apply lookup_old, lookup_new | apply lookup_new]. }
  assert (G3 : h3 !! length h2 = Some (Merged (mkObj (DataTransformer.merge_datasets a b) None)))
    by apply lookup_new.
  unfold main, then_st; unfold heap, ref in *. rewrite S1, S2, S3.
  unfold Store.filter_2020_data; unfold heap, ref in *. rewrite G3.
  unfold alloc. cbn [fst snd].
  unfold Store.compute_pearson; unfold heap, ref in *.
  rewrite (lookup_new h3). cbn [rows select_obj].
  rewrite compute_pearson_cases.
  change (select (fun r => F64.ltb (gdp_per_capita r) million)
            (select (fun r => F64.ltb ten (life_expectancy r))
               (select (fun r => F64.ltb zero (gdp_per_capita r)
                                 && F64.ltb zero (life_expectancy r))
                  (select (fun r => m_year r =? 2020)
                     (DataTransformer.merge_datasets a b)))))
    with (Analyzer.filter_2020_data (DataTransformer.merge_datasets a b)).
  rewrite Hfew. cbn [fst]. unfold h3, h2, h1.
  rewrite <- !app_assoc. reflexivity.
Qed.

End MainSteps.

Section MainWitnesses.
Import DataTransformer Analyzer Samples Store StoreSamples Main MainSamples MeltSpec.

Lemma main_preserves_tables_witness :
  fst (main no_stat no_pvalue same unit fit_nothing quiet 0%nat 1%nat raw_tables) !! 0%nat
  = raw_tables !! 0%nat.
Proof.
  apply (main_preserves_tables no_stat no_pvalue same unit fit_nothing quiet 0%nat 1%nat).
  simpl. lia.
Defined.

Lemma main_chains_row_functions_witness :
  snd (main no_stat no_pvalue same unit fit_nothing quiet 0%nat 1%nat raw_tables) =
  Raise ValueError.
Proof.
  rewrite (main_chains_row_functions no_stat no_pvalue same unit fit_nothing quiet
             raw_tables 0%nat 1%nat life_table_czechia gdp_table_czechia
             [mkLong "Czechia" 2000 (F64.of_Z 75); mkLong "Czechia" 2002 (F64.of_Z 76)]
             [mkLong "Czechia" 2000 (F64.of_Z 15000)]
             eq_refl eq_refl);
    vm_compute; reflexivity.
Defined.

Lemma main_stops_at_correlation_witness :
  snd (main no_stat no_pvalue same unit fit_nothing quiet 0%nat 1%nat raw_tables) =
  Raise ValueError.
Proof.
  rewrite (main_stops_at_correlation no_stat no_pvalue same unit fit_nothing quiet
             raw_tables 0%nat 1%nat life_table_czechia gdp_table_czechia
             [mkLong "Czechia" 2000 (F64.of_Z 75); mkLong "Czechia" 2002 (F64.of_Z 76)]
             [mkLong "Czechia" 2000 (F64.of_Z 15000)]
             eq_refl eq_refl);
    [reflexivity | vm_compute; reflexivity | vm_compute; reflexivity | vm_compute; lia].
Defined.

End MainWitnesses.

Section PairedSorts.
Import DataTransformer Analyzer.

(** X19: whatever the order of the input, the test is run on the
    differences of the life expectancies taken in ascending order of year:
    the values come from a table with the same records as the input,
    sorted by year. *)
Theorem paired_ttest_czech_sorts_by_year
  (t_pvalue : float -> Z -> float) (df_cz : frame) :
  exists cz_sorted : frame,
    Permutation cz_sorted df_cz /\
    StronglySorted year_le cz_sorted /\
    paired_ttest_czech t_pvalue df_cz =
      Return (Scipy.ttest_1samp t_pvalue
                (diffs (map life_expectancy cz_sorted)) zero).
Proof.
  exists (sort_values df_cz).
  split; [apply sort_values_perm|].
  split; [apply sort_values_sorted | reflexivity].
Qed.

End PairedSorts.
